(** * jenkins_ping: the Jenkins server API ([jenkins/api_real.go])

    A shallow embedding of [ServerAPI]: the caching status resolver
    [GetStatusForJob], the backward walk [CausesOfFailures] with the
    upstream recursion [addActionIdsToSet] / [addCauses], the failed-test
    filter [GetFailedTestListFor] and the console tail
    [GetLastLogLines] / [fetchLinesForLastLogLines].

    Go's [int] is a 64-bit two's complement integer, modelled as [Z] with
    the wrap-around written out.  Go strings are byte strings, modelled as
    [string].  The two maps of the program, the
    string-keyed boolean map used as a set and the string-keyed map of
    status records (the cache), are [gset string] and
    [gmap string JobStatus].  The HTTP server and the JSON decoder are the
    environment: they are parameters of the development. *)

From Stdlib Require Import ZArith Lia Ascii String List.
From Stdlib Require Import DecimalString DecimalZ DecimalPos DecimalNat.
From stdpp Require Import base gmap strings list.

Open Scope string_scope.
Open Scope Z_scope.

(** ** Go's [int] *)

Module GoInt.

Definition minInt : Z := - 2 ^ 63.
Definition maxInt : Z := 2 ^ 63 - 1.

Definition inRange (z : Z) : bool := (minInt <=? z) && (z <=? maxInt).

(** Two's complement wrap-around of a mathematical result. *)
Definition wrap (z : Z) : Z := (z + 2 ^ 63) mod 2 ^ 64 - 2 ^ 63.

Definition sub (a b : Z) : Z := wrap (a - b).

End GoInt.

(** ** The parts of [strconv] and [strings] the program calls *)

Module strconv.

(** [strconv.Itoa]: decimal digits, a leading [-] for negative numbers. *)
Definition Itoa (z : Z) : string := NilZero.string_of_int (Z.to_int z).

(** The digits of [s], when [s] is a non-empty run of decimal digits. *)
Definition digits (s : string) : option Z :=
  match s with
  | EmptyString => None
  | _ => match NilEmpty.uint_of_string s with
         | Some u => Some (Z.of_uint u)
         | None => None
         end
  end.

(** [strconv.Atoi]: an optional sign, then decimal digits; [None] is the
    [*NumError] (syntax or range). *)
Definition Atoi (s : string) : option Z :=
  let signed :=
    match s with
    | String "+" r => digits r
    | String "-" r => match digits r with
                      | Some n => Some (- n)
                      | None => None
                      end
    | _ => digits s
    end in
  match signed with
  | Some z => if GoInt.inRange z then Some z else None
  | None => None
  end.

End strconv.

Module strings.

(** [strings.HasPrefix s prefix]. *)
Definition HasPrefix (s pre : string) : bool := String.prefix pre s.

(** [strings.Contains s substr]. *)
Fixpoint Contains (s substr : string) : bool :=
  String.prefix substr s ||
  match s with
  | EmptyString => false
  | String _ r => Contains r substr
  end.

End strings.

(** ** Data model *)

(** Modelled from the spec: the type declarations [Culprit], [Cause],
    [Action], [ChangeSetItem], [ChangeSet], [JobStatus], [TestCase],
    [TestSuite] and [TestCaseResult] live in a file of the package that is
    not part of the sources at hand.  The fields are the ones the code of
    [api_real.go] and [api_mock.go] reads and writes, with the JSON
    projection of the request links and the data model of the spec (§3). *)
Record Culprit := { FullName : string }.

Record Cause := {
  UserID : string;
  UpstreamBuild : Z;
  UpstreamProject : string;
  ShortDescription : string
}.

Record Action := { Causes : list Cause }.

Record ChangeSetItem := { Author : Culprit }.

Record ChangeSet := { Items : list ChangeSetItem }.

Record JobStatus := {
  Result : string;
  Timestamp : Z;
  EstimatedDuration : Z;
  Building : bool;
  Culprits : list Culprit;
  Actions : list Action;
  ChangeSets : list ChangeSet
}.

Record TestCase := {
  ClassName : string;
  Name : string;
  Status : string;
  ErrorStackTrace : string
}.

Record TestSuite := { Cases : list TestCase }.

Record TestCaseResult := { Suites : list TestSuite }.

(** Modelled from the spec: [Status] and [JobBuildStatus], the answer of
    the job catalogue, are declared in the same missing file; the fields
    are those [api_mock.go] fills in (a name and a colour per job).  They
    live in a module of their own because [Name] and [Status] are fields of
    [TestCase] already, and the field of [Status], which the source calls
    [JobBuildStatus] like its element type, is [JobBuildStatusList]. *)
Module Catalog.

Record JobBuildStatus := { Name : string; Color : string }.

Record Status := { JobBuildStatusList : list JobBuildStatus }.

End Catalog.

(** The zero value [JobStatus{}]. *)
Definition zeroJobStatus : JobStatus :=
  {| Result := ""; Timestamp := 0; EstimatedDuration := 0; Building := false;
     Culprits := []; Actions := []; ChangeSets := [] |}.

(** Go [error] values.  [errStatusPageNotFound] is the package variable,
    compared by identity in [CausesOfFailures]; every other error of the
    program ([errors.New], [fmt.Errorf], the errors of [net/http],
    [encoding/json] and [strconv]) is a different value. *)
Inductive error :=
| errStatusPageNotFound
| errorString (msg : string).

Definition error_eqb (a b : error) : bool :=
  match a, b with
  | errStatusPageNotFound, errStatusPageNotFound => true
  | errorString x, errorString y => String.eqb x y
  | _, _ => false
  end.

(** ** The environment: HTTP and the log *)

Inductive Method := GET | HEAD.

Record Request := { method : Method; url : string }.

(** What the program reads of an [http.Response]: the status code, the
    [X-Text-Size] header (empty when absent), the bytes of the body and the
    error, if any, that reading the body to its end reports. *)
Record Response := {
  StatusCode : Z;
  X_Text_Size : string;
  Body : string;
  BodyErr : option error
}.

(** The lines the program writes with [log.Println] / [log.Printf]. *)
Inductive LogLine :=
| LogRejecting (job : string)
| LogUsingCache (key : string)
| LogVisiting (link : string)
| LogCouldNotParse (id : string)
| LogMaxVisits
| LogCouldNotFetch (err : error)
| LogGotActions (job id : string)
| LogCouldNotCatch (err : error).

(** The [ServerAPI] struct. [cachedStatuses] is [None] for the nil map. *)
Record ServerAPI := {
  ServerLocation : string;
  Username : string;
  Password : string;
  cachedStatuses : option (gmap string JobStatus)
}.

(** The state a call runs in: the receiver, the requests sent so far
    (oldest first) and the log written so far (oldest first). *)
Record State := {
  api : ServerAPI;
  requests : list Request;
  logged : list LogLine
}.

Definition log_Println (l : LogLine) (st : State) : State :=
  {| api := api st; requests := requests st; logged := (logged st ++ [l])%list |}.

Definition set_cachedStatuses (c : option (gmap string JobStatus)) (st : State) : State :=
  {| api := {| ServerLocation := ServerLocation (api st);
               Username := Username (api st);
               Password := Password (api st);
               cachedStatuses := c |};
     requests := requests st; logged := logged st |}.

Definition lastCompletedBuild : string := "lastCompletedBuild".
Definition lastBuild : string := "lastBuild".
Definition sizeOfSuffix : Z := 2048.

Section ServerAPI.

(** The server: what a request returns, given the requests that came
    before it; [inl] is the error of [http.Get] / [http.Head]. *)
Variable http_Do : list Request -> Request -> error + Response.

(** [json.NewDecoder(resp.Body).Decode(&result)] for a [JobStatus]: the
    record the decoder leaves behind, zero-valued where it filled nothing
    in, and its error.  The decoder is taken to leave [result] pointing at
    a record. *)
Variable json_Decode_JobStatus : Response -> JobStatus * option error.

(** The same for a [TestCaseResult]. *)
Variable json_Decode_TestCaseResult : Response -> TestCaseResult * option error.

Definition http_Get (link : string) (st : State) : (error + Response) * State :=
  let req := {| method := GET; url := link |} in
  (http_Do (requests st) req,
   {| api := api st; requests := (requests st ++ [req])%list; logged := logged st |}).

Definition http_Head (link : string) (st : State) : (error + Response) * State :=
  let req := {| method := HEAD; url := link |} in
  (http_Do (requests st) req,
   {| api := api st; requests := (requests st ++ [req])%list; logged := logged st |}).

(** *** [GetStatusForJob] *)

Definition statusTree : string :=
  "id,result,timestamp,estimatedDuration,building,culprits[fullName],actions[causes[userId,upstreamBuild,upstreamProject,shortDescription]],changeSets[items[author[fullName]]]".

Definition statusLink (location job id : string) : string :=
  location +:+ "/job/" +:+ job +:+ "/" +:+ id +:+ "/api/json?tree=" +:+ statusTree.

Definition cacheKey (job id : string) : string := job +:+ "-" +:+ id.

(** [id != lastBuild && id != lastCompletedBuild] *)
Definition cacheable (id : string) : bool :=
  negb (String.eqb id lastBuild) && negb (String.eqb id lastCompletedBuild).

Definition GetStatusForJob (job id : string) (st : State)
  : (error + JobStatus) * State :=
  let possibleCacheKey := cacheKey job id in
  if strings.Contains job "/" then
    (inl errStatusPageNotFound, log_Println (LogRejecting job) st)
  else
    (* the map is made on the first call with a cacheable id *)
    let st :=
      if cacheable id then
        match cachedStatuses (api st) with
        | None => set_cachedStatuses (Some ∅) st
        | Some _ => st
        end
      else st in
    let cached :=
      if cacheable id then
        match cachedStatuses (api st) with
        | Some m => m !! possibleCacheKey
        | None => None
        end
      else None in
    match cached with
    | Some cachedValue =>
        (inr cachedValue, log_Println (LogUsingCache possibleCacheKey) st)
    | None =>
        let link := statusLink (ServerLocation (api st)) job id in
        let st := log_Println (LogVisiting link) st in
        let '(r, st) := http_Get link st in
        match r with
        | inl err => (inl err, st)
        | inr resp =>
            if StatusCode resp =? 404 then (inl errStatusPageNotFound, st)
            else
              let '(result, err) := json_Decode_JobStatus resp in
              let st :=
                match err with
                | None =>
                    if cacheable id then
                      (* the map is not nil here: [cacheable id] made it above *)
                      set_cachedStatuses
                        (Some (<[possibleCacheKey := result]>
                                 (default ∅ (cachedStatuses (api st))))) st
                    else st
                | Some _ => st
                end in
              (inr result, st)
        end
    end.

(** *** The accumulator of causes: a [map[string]bool] used as a set *)

Definition addCulpritIdsToSet (set : gset string) (culprits : list Culprit)
  : gset string :=
  fold_left (fun set culprit => {[FullName culprit]} ∪ set) culprits set.

Definition addChangeSetsToSet (set : gset string) (changeSets : list ChangeSet)
  : gset string :=
  fold_left
    (fun set changeSet =>
       fold_left
         (fun set changeSetItem => {[FullName (Author changeSetItem)]} ∪ set)
         (Items changeSet) set)
    changeSets set.

(** Modelled from the spec: [mapKeysToSlice] is declared in a file of the
    package that is not part of the sources at hand; it returns the keys
    of the map, the deduplicated contributors, in no promised order
    (spec §4.2, step 5). *)
Definition mapKeysToSlice (set : gset string) : list string := elements set.

(** A [for ... range] loop whose body may fail to return. *)
Fixpoint forRange {A S : Type} (body : S -> A -> option S) (l : list A) (s : S)
  : option S :=
  match l with
  | [] => Some s
  | x :: l' => match body s x with
               | Some s' => forRange body l' s'
               | None => None
               end
  end.

(** *** [addActionIdsToSet] and [addCauses]

    The two functions call each other, with nothing that bounds the
    depth of the calls.  [addActionIdsToSet_with] is the body of
    [addActionIdsToSet] over the function it calls; [addCauses] ties the
    knot, by recursion on [fuel], the number of nested [addCauses] frames
    the stack has room for.  [None] is a call that does not return within
    that depth. *)

Definition AddCauses : Type :=
  gset string -> string -> Z -> State -> option (option error * gset string * State).

Definition classifyCause (addCauses : AddCauses) (status : JobStatus)
    (acc : gset string * State) (cause : Cause) : option (gset string * State) :=
  let '(set, st) := acc in
  if negb (String.eqb (UserID cause) "") then
    Some ({[UserID cause]} ∪ set, st)
  else if negb (UpstreamBuild cause =? 0) && negb (String.eqb (UpstreamProject cause) "") then
    match addCauses set (UpstreamProject cause) (UpstreamBuild cause) st with
    | Some (Some err, set, st) => Some (set, log_Println (LogCouldNotCatch err) st)
    | Some (None, set, st) => Some (set, st)
    | None => None
    end
  else if String.eqb (ShortDescription cause) "Started by an SCM change" then
    Some (addCulpritIdsToSet set (Culprits status), st)
  else if strings.HasPrefix (ShortDescription cause) "commit notification" then
    Some (addChangeSetsToSet set (ChangeSets status), st)
  else Some (set, st).

Definition addActionIdsToSet_with (addCauses : AddCauses)
    (set : gset string) (status : JobStatus) (st : State)
  : option (gset string * State) :=
  forRange
    (fun acc action => forRange (classifyCause addCauses status) (Causes action) acc)
    (Actions status) (set, st).

Fixpoint addCauses (fuel : nat) (set : gset string)
    (upstreamProject : string) (upstreamBuild : Z) (st : State)
  : option (option error * gset string * State) :=
  match fuel with
  | O => None
  | S fuel' =>
      let '(r, st) := GetStatusForJob upstreamProject (strconv.Itoa upstreamBuild) st in
      match r with
      | inl err => Some (Some err, set, st)
      | inr status =>
          match addActionIdsToSet_with (addCauses fuel') set status st with
          | Some (set, st) => Some (None, set, st)
          | None => None
          end
      end
  end.

Definition addActionIdsToSet (fuel : nat) : gset string -> JobStatus -> State
    -> option (gset string * State) :=
  addActionIdsToSet_with (addCauses fuel).

(** *** [Causes] (the method; [Causes] is already the field of [Action]) *)

Definition ServerAPI_Causes (fuel : nat) (status : JobStatus) (st : State)
  : option (list string * State) :=
  let set := fold_left (fun set culprit => {[FullName culprit]} ∪ set)
               (Culprits status) ∅ in
  match addActionIdsToSet fuel set status st with
  | Some (set, st) => Some (mapKeysToSlice set, st)
  | None => None
  end.

(** *** [CausesOfFailures]

    The [for] loop.  [visitsToServerAllowed] is the variable of the same
    name at the head of an iteration: it starts at 20 and an iteration
    that does not break leaves it one smaller and positive, so it is a
    natural number and the loop is a recursion on it. *)

Fixpoint CausesOfFailures_loop (fuel : nat) (name : string)
    (visitsToServerAllowed : nat) (set : gset string) (id : string) (st : State)
  : option (gset string * State) :=
  if String.eqb id lastCompletedBuild then Some (set, st)
  else
    match strconv.Atoi id with
    | None => Some (set, log_Println (LogCouldNotParse id) st)
    | Some currentID =>
        (* visitsToServerAllowed--; if visitsToServerAllowed <= 0 *)
        match visitsToServerAllowed with
        | O | 1%nat => Some (set, log_Println LogMaxVisits st)
        | S visitsToServerAllowed =>
            let '(r, st) := GetStatusForJob name id st in
            match r with
            | inl err =>
                if error_eqb err errStatusPageNotFound then
                  CausesOfFailures_loop fuel name visitsToServerAllowed set
                    (strconv.Itoa (GoInt.sub currentID 1)) st
                else Some (set, log_Println (LogCouldNotFetch err) st)
            | inr statusIterator =>
                if String.eqb (Result statusIterator) "SUCCESS"
                   || String.eqb (Result statusIterator) "FIXED"
                then Some (set, st)
                else
                  let st := log_Println (LogGotActions name id) st in
                  match addActionIdsToSet fuel set statusIterator st with
                  | None => None
                  | Some (set, st) =>
                      let set := addCulpritIdsToSet set (Culprits statusIterator) in
                      let set := addChangeSetsToSet set (ChangeSets statusIterator) in
                      CausesOfFailures_loop fuel name visitsToServerAllowed set
                        (strconv.Itoa (GoInt.sub currentID 1)) st
                  end
            end
        end
    end.

Definition CausesOfFailures (fuel : nat) (name id : string) (st : State)
  : option (list string * State) :=
  match CausesOfFailures_loop fuel name 20 ∅ id st with
  | Some (set, st) => Some (mapKeysToSlice set, st)
  | None => None
  end.

Definition CausesOfPreviousFailures (fuel : nat) (name : string) (st : State)
  : option (list string * State) :=
  CausesOfFailures fuel name lastCompletedBuild st.

(** *** [GetFailedTestListFor] *)

Definition testReportLink (location job id : string) : string :=
  location +:+ "/job/" +:+ job +:+ "/" +:+ id
    +:+ "/testReport/api/json?tree=suites[cases[className,name,status,errorStackTrace]]".

(** The two nested [range] loops over the received report. *)
Definition collectFailed (received : TestCaseResult) : list TestCase :=
  fold_left
    (fun results suite =>
       fold_left
         (fun results aCase =>
            if negb (String.eqb (Status aCase) "PASSED")
               && negb (String.eqb (Status aCase) "SKIPPED")
               && negb (String.eqb (Status aCase) "FIXED")
            then (results ++ [aCase])%list
            else results)
         (Cases suite) results)
    (Suites received) [].

Definition GetFailedTestListFor (job id : string) (st : State)
  : (error + list TestCase) * State :=
  let link := testReportLink (ServerLocation (api st)) job id in
  let st := log_Println (LogVisiting link) st in
  let '(r, st) := http_Get link st in
  match r with
  | inl err => (inl err, st)
  | inr resp =>
      if StatusCode resp =? 404 then (inl (errorString "no test report found"), st)
      else
        match json_Decode_TestCaseResult resp with
        | (_, Some err) => (inl err, st)
        | (received, None) => (inr (collectFailed received), st)
        end
  end.

Definition GetFailedTestList (job : string) (st : State)
  : (error + list TestCase) * State :=
  GetFailedTestListFor job "lastFailedBuild" st.

(** *** [GetLastLogLines] *)

Definition fetchSizeForLastLogLines (linkForSize : string) (st : State)
  : (error + Z) * State :=
  let '(r, st) := http_Head linkForSize st in
  match r with
  | inl err => (inl err, st)
  | inr resp =>
      if negb (StatusCode resp =? 200) then
        (inl (errorString ("could not fetch log size, statusCode="
                             +:+ strconv.Itoa (StatusCode resp))), st)
      else
        let textSize := X_Text_Size resp in
        if String.eqb textSize "" then
          (inl (errorString "size not received from server HEAD call"), st)
        else
          match strconv.Atoi textSize with
          | Some n => (inr n, st)
          | None => (inl (errorString ("strconv.Atoi: parsing " +:+ textSize)), st)
          end
  end.

Definition newline : ascii := "010"%char.
Definition carriageReturn : ascii := "013"%char.

(** [strings.Contains r ">"] for the rest of a tag. *)
Fixpoint closes (r : string) : bool :=
  match r with
  | EmptyString => false
  | String c r' => Ascii.eqb c ">" || closes r'
  end.

(** Does a match of [[^>]+>] start here? *)
Definition opensTag (r : string) : bool :=
  match r with
  | EmptyString => false
  | String c r' => negb (Ascii.eqb c ">") && closes r'
  end.

(** [matcherForHTMLAndWeirdCharacters.ReplaceAllString(s, "")] for the
    expression [(<[^>]+>)|(\r)]: the leftmost matches, one after the
    other, are cut out.  [inTag] holds while the scan is inside a match
    of the first alternative, which ends at the first [>]. *)
Fixpoint stripMatches (inTag : bool) (s : string) : string :=
  match s with
  | EmptyString => EmptyString
  | String c r =>
      if inTag then
        if Ascii.eqb c ">" then stripMatches false r else stripMatches true r
      else if Ascii.eqb c "<" && opensTag r then stripMatches true r
      else if Ascii.eqb c carriageReturn then stripMatches false r
      else String c (stripMatches false r)
  end.

Definition cleanLine (s : string) : string := stripMatches false s.

(** [data[lo:hi]] *)
Definition slice (data : string) (lo hi : Z) : string :=
  String.substring (Z.to_nat lo) (Z.to_nat (hi - lo)) data.

(** The backward scan [for i := endIter; i >= 0 && nl < lineCount; i--];
    [n] is [i + 1], so that the loop ends when [n] is [0]. *)
Fixpoint scanBackward (data : string) (lineCount : Z) (n : nat)
    (nl endIter : Z) (dataAsString : list string) : list string :=
  match n with
  | O => dataAsString
  | S i' =>
      let i := Z.of_nat i' in
      if nl <? lineCount then
        if match String.get i' data with
           | Some c => Ascii.eqb c newline
           | None => false
           end && negb (i =? endIter)
        then
          scanBackward data lineCount i' (nl + 1) i
            (dataAsString ++ [cleanLine (slice data (i + 1) endIter)])%list
        else scanBackward data lineCount i' nl endIter dataAsString
      else dataAsString
  end.

(** The swap loop [for i := 0; i < len(dataAsString)/2; i++]; [steps] is
    the number of iterations left. *)
Fixpoint swapLoop (steps i : nat) (dataAsString : list string) : list string :=
  match steps with
  | O => dataAsString
  | S steps' =>
      let j := (length dataAsString - i - 1)%nat in
      match dataAsString !! i, dataAsString !! j with
      | Some a, Some b =>
          swapLoop steps' (S i) (<[j := a]> (<[i := b]> dataAsString))
      | _, _ => dataAsString
      end
  end.

Definition reverseInPlace (dataAsString : list string) : list string :=
  swapLoop (length dataAsString / 2)%nat 0 dataAsString.

(** The lines of [data], newest first, as the scan appends them. *)
Definition collectLines (data : string) (lineCount : Z) : list string :=
  scanBackward data lineCount (String.length data) 0
    (Z.of_nat (String.length data) - 1) [].

Definition fetchLinesForLastLogLines (link : string) (lineCount : Z) (st : State)
  : (error + list string) * State :=
  let '(r, st) := http_Get link st in
  match r with
  | inl err => (inl err, st)
  | inr respData =>
      if negb (StatusCode respData =? 200) then
        (inl (errorString ("not able to fetch console output: "
                             +:+ strconv.Itoa (StatusCode respData))), st)
      else
        match BodyErr respData with
        | Some err => (inl err, st)
        | None =>
            (inr (reverseInPlace (collectLines (Body respData) lineCount)), st)
        end
  end.

Definition logLink (location job id : string) : string :=
  location +:+ "/job/" +:+ job +:+ "/" +:+ id +:+ "/logText/progressiveHtml".

Definition GetLastLogLines (job id : string) (lineCount : Z) (st : State)
  : (error + list string) * State :=
  let linkForSize := logLink (ServerLocation (api st)) job id in
  let '(r, st) := fetchSizeForLastLogLines linkForSize st in
  match r with
  | inl err => (inl err, st)
  | inr size =>
      fetchLinesForLastLogLines
        (linkForSize +:+ "?start=" +:+ strconv.Itoa (GoInt.sub size sizeOfSuffix))
        lineCount st
  end.

(** *** The URLs of a job, [GetCurrentStatus] and [GetKnownJobs] *)

Definition GetLastBuildURLForJob (job : string) (st : State) : string :=
  ServerLocation (api st) +:+ "/job/" +:+ job +:+ "/" +:+ lastBuild +:+ "/".

Definition GetLastCompletedBuildURLForJob (job : string) (st : State) : string :=
  ServerLocation (api st) +:+ "/job/" +:+ job +:+ "/" +:+ lastCompletedBuild +:+ "/".

Definition GetCurrentStatus (job : string) (st : State)
  : (error + JobStatus) * State :=
  GetStatusForJob job lastBuild st.

(** [json.NewDecoder(resp.Body).Decode(&resultFromJenkins)] for the
    catalogue of jobs. *)
Variable json_Decode_Status : Response -> Catalog.Status * option error.

Definition knownJobsLink (location : string) : string :=
  location +:+ "/api/json?tree=jobs[name,color]".

(** The error of the decoder is assigned to [err] and then dropped by
    [return resultFromJenkins, nil]; the status code is not looked at. *)
Definition GetKnownJobs (st : State) : (error + Catalog.Status) * State :=
  let '(r, st) := http_Get (knownJobsLink (ServerLocation (api st))) st in
  match r with
  | inl err => (inl err, st)
  | inr resp =>
      let '(resultFromJenkins, _) := json_Decode_Status resp in
      (inr resultFromJenkins, st)
  end.

End ServerAPI.

(** ** The mock ([jenkins/api_mock.go]) *)

Module MockAPI.

Definition randomCauses : list string := [ "milan"; "fred"; "johnny"; "unknown" ].

Definition randomTests : list string := [ "test1"; "test2"; "test3"; "test4" ].

Section Mock.

(** The generator of [math/rand]: [raw k] is what its [k]-th draw is made
    of.  [rand.Intn(n)] returns some number from 0 below [n]; every such
    answer is [raw k mod n] for a suitable [raw].  The state of a call is
    the number of draws so far. *)
Variable raw : nat -> Z.

(** [time.Now().UnixNano()] *)
Variable now : Z.

Definition rand_Intn (n : Z) (draws : nat) : Z * nat := (raw draws mod n, S draws).

(** [randomCauses[rand.Intn(len(randomCauses))]]; the index is in range. *)
Definition pick (names : list string) (draws : nat) : string * nat :=
  let '(i, draws) := rand_Intn (Z.of_nat (length names)) draws in
  (nth (Z.to_nat i) names "", draws).

(** The loop [for i := 0; i < rand.Intn(5); i++], which draws a number at
    every test.  [rand.Intn(5)] is at most 4, so the test fails at the
    latest when [i] is 4, the fifth test; the recursion is on the tests
    left, [remaining], 5 at the start. *)
Fixpoint forIntn5 {A : Type} (body : A -> nat -> A * nat)
    (remaining : nat) (i : Z) (acc : A) (draws : nat) : A * nat :=
  let '(v, draws) := rand_Intn 5 draws in
  match remaining with
  | O => (acc, draws)
  | S remaining' =>
      if i <? v then
        let '(acc, draws) := body acc draws in
        forIntn5 body remaining' (i + 1) acc draws
      else (acc, draws)
  end.

(** The loop [for i := 0; i < 12; i++] of [GetKnownJobs]. *)
Fixpoint knownJobsLoop (remaining : nat) (i : Z)
    (jobs : list Catalog.JobBuildStatus) (draws : nat)
  : list Catalog.JobBuildStatus * nat :=
  match remaining with
  | O => (jobs, draws)
  | S remaining' =>
      let '(v, draws) := rand_Intn 3 draws in
      let color :=
        if v =? 0 then "blue"
        else if v =? 1 then "red"
        else if v =? 2 then "aborted"
        else "" in
      knownJobsLoop remaining' (i + 1)
        (jobs ++ [ {| Catalog.Name := "a_test_job_long_name" +:+ strconv.Itoa i;
                      Catalog.Color := color |} ])%list
        draws
  end.

Definition GetKnownJobs (draws : nat) : (error + Catalog.Status) * nat :=
  let '(jobs, draws) := knownJobsLoop 12 0 [] draws in
  (inr {| Catalog.JobBuildStatusList := jobs |}, draws).

Definition GetCurrentStatus (job : string) (draws : nat) : (error + JobStatus) * nat :=
  let '(culprits, draws) :=
    forIntn5
      (fun culprits draws =>
         let '(name, draws) := pick randomCauses draws in
         ((culprits ++ [ {| FullName := name |} ])%list, draws))
      5 0 [] draws in
  let '(causes, draws) :=
    forIntn5
      (fun causes draws =>
         let '(name, draws) := pick randomCauses draws in
         ((causes ++ [ {| UserID := name; UpstreamBuild := 0; UpstreamProject := "";
                          ShortDescription := "" |} ])%list, draws))
      5 0 [] draws in
  let '(b, draws) := rand_Intn 2 draws in
  let '(d, draws) := rand_Intn 300000 draws in
  let '(t, draws) := rand_Intn 300000 draws in
  (inr {| Result := "";
          Timestamp := GoInt.sub (Z.quot (Z.quot now 1000) 1000) t;
          EstimatedDuration := d;
          Building := b =? 0;
          Culprits := culprits;
          Actions := [ {| Causes := causes |} ];
          ChangeSets := [] |},
   draws).

Definition GetStatusForJob (job jobID : string) (draws : nat)
  : (error + JobStatus) * nat :=
  GetCurrentStatus job draws.

Definition Causes (status : JobStatus) (draws : nat) : list string * nat :=
  let '(set, draws) :=
    forIntn5
      (fun (set : gset string) draws =>
         let '(name, draws) := pick randomCauses draws in
         ({[name]} ∪ set, draws))
      5 0 ∅ draws in
  (mapKeysToSlice set, draws).

Definition CausesOfFailures (name id : string) (draws : nat) : list string * nat :=
  Causes zeroJobStatus draws.

Definition CausesOfPreviousFailures (job : string) (draws : nat) : list string * nat :=
  Causes zeroJobStatus draws.

Definition GetLastBuildURLForJob (job : string) : string :=
  "http://mock_jenkins/job/" +:+ job +:+ "/lastBuild/".

Definition GetLastCompletedBuildURLForJob (job : string) : string :=
  "http://mock_jenkins/job/" +:+ job +:+ "/lastCompletedBuild/".

(** The cases go to the local [set]; the named results [testCaseResult]
    and [err] are returned as they are, nil. *)
Definition GetFailedTestList (job : string) (draws : nat)
  : (error + list TestCase) * nat :=
  let '(_, draws) :=
    forIntn5
      (fun (set : list TestCase) draws =>
         let '(className, draws) := pick randomTests draws in
         let '(name, draws) := pick randomTests draws in
         ((set ++ [ {| ClassName := className; Name := name; Status := "FAILED";
                       ErrorStackTrace := "" |} ])%list, draws))
      5 0 [] draws in
  (inr [], draws).

Definition GetFailedTestListFor (job id : string) (draws : nat)
  : (error + list TestCase) * nat :=
  GetFailedTestList job draws.

Definition GetLastLogLines (job id : string) (lineCount : Z) : error + list string :=
  inr [ "line1"; "line2"; "line3" ].

Definition RunJob (job : string) : option error := None.

End Mock.

End MockAPI.

(** ** Vocabulary of the statements *)

(** The state after more lines were logged. *)
Definition add_logs (ls : list LogLine) (st : State) : State :=
  {| api := api st; requests := requests st; logged := (logged st ++ ls)%list |}.

(** What the cache holds under a key; the nil map holds nothing. *)
Definition cacheLookup (st : State) (key : string) : option JobStatus :=
  match cachedStatuses (api st) with
  | Some m => m !! key
  | None => None
  end.

(** The first branch of [classifyCause] that a cause takes is the upstream
    one: no user id, an upstream build and an upstream project. *)
Definition isUpstream (cause : Cause) : bool :=
  String.eqb (UserID cause) ""
  && negb (UpstreamBuild cause =? 0)
  && negb (String.eqb (UpstreamProject cause) "").

(** The cache key under which [addCauses] resolves an upstream cause. *)
Definition upstreamKey (cause : Cause) : string :=
  cacheKey (UpstreamProject cause) (strconv.Itoa (UpstreamBuild cause)).

(** Every upstream cause of [status] has a rank below [bound]. *)
Definition upstreamsBelow (rank : string -> nat) (bound : nat) (status : JobStatus) : Prop :=
  forall action cause,
    In action (Actions status) -> In cause (Causes action) ->
    isUpstream cause = true -> (rank (upstreamKey cause) < bound)%nat.

(** The records of the cache respect a rank on cache keys. *)
Definition cacheRanked (rank : string -> nat) (st : State) : Prop :=
  forall key status,
    cacheLookup st key = Some status -> upstreamsBelow rank (rank key) status.

(** The records the server at [location] hands out respect a rank on cache
    keys: the upstream causes of the record served for a job and an id rank
    below the key of that job and id. *)
Definition servedRanked
    (http_Do : list Request -> Request -> error + Response)
    (json_Decode_JobStatus : Response -> JobStatus * option error)
    (location : string) (rank : string -> nat) : Prop :=
  forall trace job id resp,
    http_Do trace {| method := GET; url := statusLink location job id |} = inr resp ->
    StatusCode resp <> 404 ->
    upstreamsBelow rank (rank (cacheKey job id)) (fst (json_Decode_JobStatus resp)).

(** A state whose cache respects the rank and whose receiver points at
    [location]. *)
Definition rankedState (rank : string -> nat) (location : string) (st : State) : Prop :=
  cacheRanked rank st /\ ServerLocation (api st) = location.

(** Every call of [GetStatusForJob] writes one line, and a different one
    for a rejected job, a cached record and a request: the calls of the
    resolver are the lines of these three kinds. *)
Definition resolverLine (l : LogLine) : bool :=
  match l with
  | LogRejecting _ | LogUsingCache _ | LogVisiting _ => true
  | _ => false
  end.

Definition resolverCalls (st : State) : nat :=
  length (List.filter resolverLine (logged st)).

(** The cases [GetFailedTestListFor] keeps. *)
Definition failedCase (aCase : TestCase) : bool :=
  negb (String.eqb (Status aCase) "PASSED")
  && negb (String.eqb (Status aCase) "SKIPPED")
  && negb (String.eqb (Status aCase) "FIXED").

(** A record none of whose causes takes the upstream branch. *)
Definition noUpstream (status : JobStatus) : Prop :=
  forall action cause,
    In action (Actions status) -> In cause (Causes action) -> isUpstream cause = false.

(** The user ids of a list of causes, of the actions of a record. *)
Definition userIDs (causes : list Cause) : list string :=
  flat_map (fun cause => if String.eqb (UserID cause) "" then [] else [UserID cause])
    causes.

Definition userNames (actions : list Action) : gset string :=
  list_to_set (flat_map (fun action => userIDs (Causes action)) actions).

Definition culpritNames (culprits : list Culprit) : gset string :=
  list_to_set (map FullName culprits).

Definition authorNames (changeSets : list ChangeSet) : gset string :=
  list_to_set
    (flat_map (fun changeSet => map (fun item => FullName (Author item)) (Items changeSet))
       changeSets).

(** A server, and a cache, whose records have no upstream cause. *)
Definition flatServer
    (http_Do : list Request -> Request -> error + Response)
    (json_Decode_JobStatus : Response -> JobStatus * option error) : Prop :=
  forall trace req resp,
    http_Do trace req = inr resp -> noUpstream (fst (json_Decode_JobStatus resp)).

Definition flatCache (st : State) : Prop :=
  forall key status, cacheLookup st key = Some status -> noUpstream status.

(** The accumulator never loses a name, whatever the upstream calls do. *)
Definition growing (ac : AddCauses) : Prop :=
  forall set p b st e set' st', ac set p b st = Some (e, set', st') -> set ⊆ set'.

(** Does the character occur in the string? *)
Fixpoint hasChar (c : ascii) (s : string) : bool :=
  match s with
  | EmptyString => false
  | String c' r => Ascii.eqb c' c || hasChar c r
  end.

(** The state after one more request. *)
Definition withRequest (req : Request) (st : State) : State :=
  {| api := api st; requests := (requests st ++ [req])%list; logged := logged st |}.

(** The text of [lines], each line after a newline of its own. *)
Definition linesAfter (lines : list string) : string :=
  fold_right (fun line rest => String newline (line +:+ rest)) EmptyString lines.

(** ** Concrete servers *)

Module Worlds.

Definition location : string := "http://jenkins".

(** A [ServerAPI] as [main] makes it, before any call. *)
Definition fresh : State :=
  {| api := {| ServerLocation := location; Username := ""; Password := "";
               cachedStatuses := None |};
     requests := []; logged := [] |}.

Definition respond (code : Z) (size body : string) : error + Response :=
  inr {| StatusCode := code; X_Text_Size := size; Body := body; BodyErr := None |}.

Definition ok (body : string) : error + Response := respond 200 "" body.
Definition notFound : error + Response := respond 404 "" "".

Fixpoint assoc {A : Type} (k : string) (t : list (string * A)) : option A :=
  match t with
  | [] => None
  | (k', v) :: t' => if String.eqb k k' then Some v else assoc k t'
  end.

(** A server that answers by URL from a table, and 404 elsewhere. *)
Definition tableServer (t : list (string * (error + Response)))
  : list Request -> Request -> error + Response :=
  fun _ req => match assoc (url req) t with
               | Some r => r
               | None => notFound
               end.

(** A decoder that knows the bodies of a table and fails on the others,
    leaving the zero record. *)
Definition tableDecoder (t : list (string * JobStatus)) (resp : Response)
  : JobStatus * option error :=
  match assoc (Body resp) t with
  | Some status => (status, None)
  | None => (zeroJobStatus, Some (errorString "invalid character"))
  end.

Definition noReport (resp : Response) : TestCaseResult * option error :=
  ({| Suites := [] |}, Some (errorString "invalid character")).

Definition build (result culprit : string) (actions : list Action) : JobStatus :=
  {| Result := result; Timestamp := 0; EstimatedDuration := 0; Building := false;
     Culprits := [ {| FullName := culprit |} ]; Actions := actions;
     ChangeSets := [] |}.

Definition upstream (project : string) (buildID : Z) : Cause :=
  {| UserID := ""; UpstreamBuild := buildID; UpstreamProject := project;
     ShortDescription := "Started by upstream project" |}.

Definition user (id : string) : Cause :=
  {| UserID := id; UpstreamBuild := 0; UpstreamProject := "";
     ShortDescription := "Started by user" |}.

Definition link (job id : string) : string := statusLink location job id.

(** Build #10 purged, #9 failed by C, #8 succeeded. *)
Definition purgedServer := tableServer [ (link "job" "9", ok "nine"); (link "job" "8", ok "eight") ].
Definition purgedDecoder :=
  tableDecoder [ ("nine", build "FAILURE" "C" []); ("eight", build "SUCCESS" "D" []) ].

(** Builds #1 to #25 of "job" all failed, each by its own culprit. *)
Definition streakIds : list Z := map Z.of_nat (seq 1 25).
Definition streakServer :=
  tableServer (map (fun i => (link "job" (strconv.Itoa i), ok (strconv.Itoa i))) streakIds).
Definition streakDecoder :=
  tableDecoder
    (map (fun i => (strconv.Itoa i, build "FAILURE" ("dev" +:+ strconv.Itoa i) [])) streakIds).

(** A#1 was started by B#1 and B#1 by A#1. *)
Definition statusA := build "FAILURE" "ann" [ {| Causes := [ upstream "B" 1 ] |} ].
Definition statusB := build "FAILURE" "bob" [ {| Causes := [ upstream "A" 1 ] |} ].
Definition cycleServer := tableServer [ (link "A" "1", ok "a1"); (link "B" "1", ok "b1") ].
Definition cycleDecoder := tableDecoder [ ("a1", statusA); ("b1", statusB) ].

(** The states the walk on the cycle goes through: the cache holds, for
    A#1 and B#1, nothing or the record of the server. *)
Definition cycleState (st : State) : Prop :=
  ServerLocation (api st) = location
  /\ (cacheLookup st "A-1" = None \/ cacheLookup st "A-1" = Some statusA)
  /\ (cacheLookup st "B-1" = None \/ cacheLookup st "B-1" = Some statusB).

(** down#5 names up#7 as its upstream twice; up#7 was started by alice. *)
Definition statusUp := build "SUCCESS" "carl" [ {| Causes := [ user "alice" ] |} ].
Definition statusDown :=
  build "FAILURE" "dave"
    [ {| Causes := [ upstream "up" 7 ] |}; {| Causes := [ upstream "up" 7 ] |} ].
Definition diamondServer :=
  tableServer [ (link "down" "5", ok "down5"); (link "down" "4", ok "down4");
                (link "up" "7", ok "up7") ].
Definition diamondDecoder :=
  tableDecoder [ ("down5", statusDown); ("down4", build "SUCCESS" "dave" []);
                 ("up7", statusUp) ].
Definition diamondRank (key : string) : nat :=
  if String.eqb key "up-7" then 0%nat else 1%nat.

(** The walk from build #25 on a fresh receiver, and the same walk again
    on the receiver the first one left. *)
Definition streakRun1 : option (list string * State) :=
  CausesOfFailures streakServer streakDecoder 0 "job" "25" fresh.
Definition streakRun2 : option (list string * State) :=
  match streakRun1 with
  | Some (_, st) => CausesOfFailures streakServer streakDecoder 0 "job" "25" st
  | None => None
  end.

(** A server that answers build #42 with a page that is not JSON. *)
Definition garbageServer := tableServer [ (link "job" "42", respond 500 "" "<html>oops</html>") ].
Definition garbageDecoder := tableDecoder [].

(** A server that knows build #42. *)
Definition oneServer := tableServer [ (link "job" "42", ok "fortytwo"); (link "job" "lastBuild", ok "fortytwo") ].
Definition oneDecoder := tableDecoder [ ("fortytwo", build "SUCCESS" "erin" []) ].

(** The console log ["a\nb\nc\nd\n"] of build #7, 8 bytes long. *)
Definition nl : string := String newline EmptyString.
Definition logBuffer : string := "a" +:+ nl +:+ "b" +:+ nl +:+ "c" +:+ nl +:+ "d" +:+ nl.
Definition logServer :=
  tableServer [ (logLink location "job" "7", respond 200 "8" "");
                (logLink location "job" "7" +:+ "?start=-2040", ok logBuffer) ].

(** A console log of 5000 bytes. *)
Definition bigLogServer :=
  tableServer [ (logLink location "job" "7", respond 200 "5000" "") ].

(** A test report of two suites. *)
Definition testCase (name status : string) : TestCase :=
  {| ClassName := "pkg.Suite"; Name := name; Status := status; ErrorStackTrace := "" |}.
Definition report : TestCaseResult :=
  {| Suites := [ {| Cases := [ testCase "t1" "FAILED"; testCase "t2" "PASSED";
                               testCase "t3" "REGRESSION" ] |};
                 {| Cases := [ testCase "t4" "SKIPPED"; testCase "t5" "FIXED";
                               testCase "t6" "FAILED" ] |} ] |}.
Definition reportServer := tableServer [ (testReportLink location "job" "7", ok "report") ].
Definition reportDecoder (resp : Response) : TestCaseResult * option error :=
  if String.eqb (Body resp) "report" then (report, None) else noReport resp.

(** A server that knows build #2 of the job "a-1". *)
Definition collisionServer := tableServer [ (link "a-1" "2", ok "fortytwo") ].

(** A server that cannot be reached. *)
Definition downServer : list Request -> Request -> error + Response :=
  fun _ _ => inl (errorString "connection refused").

End Worlds.

(** * Properties *)

(** ** Integers and their decimal form *)

Lemma wrap_inRange z : GoInt.inRange z = true -> GoInt.wrap z = z.
Proof.
  unfold GoInt.inRange, GoInt.wrap, GoInt.minInt, GoInt.maxInt. intros H.
  apply andb_true_iff in H as [H1 H2]. apply Z.leb_le in H1, H2.
  rewrite Z.mod_small; lia.
Qed.

Lemma inRange_wrap z : GoInt.inRange (GoInt.wrap z) = true.
Proof.
  unfold GoInt.inRange, GoInt.wrap, GoInt.minInt, GoInt.maxInt.
  pose proof (Z.mod_pos_bound (z + 2 ^ 63) (2 ^ 64) ltac:(lia)).
  apply andb_true_iff. split; apply Z.leb_le; lia.
Qed.

Lemma digits_string_of_uint d :
  d <> Decimal.Nil -> strconv.digits (NilEmpty.string_of_uint d) = Some (Z.of_uint d).
Proof.
  intros Hd. unfold strconv.digits.
  destruct (NilEmpty.string_of_uint d) eqn:E.
  - destruct d; simpl in E; congruence.
  - rewrite <- E, NilEmpty.usu. reflexivity.
Qed.

Lemma Atoi_string_of_uint d :
  d <> Decimal.Nil -> GoInt.inRange (Z.of_uint d) = true ->
  strconv.Atoi (NilEmpty.string_of_uint d) = Some (Z.of_uint d).
Proof.
  intros Hd Hr. pose proof (digits_string_of_uint d Hd) as H.
  destruct d; try congruence; unfold strconv.Atoi;
    cbn [NilEmpty.string_of_uint] in *; rewrite H, Hr; reflexivity.
Qed.

Lemma string_of_uint_nonnil d :
  d <> Decimal.Nil -> NilZero.string_of_uint d = NilEmpty.string_of_uint d.
Proof. intros H. destruct d; [congruence | reflexivity ..]. Qed.

Lemma Atoi_Itoa z : GoInt.inRange z = true -> strconv.Atoi (strconv.Itoa z) = Some z.
Proof.
  intros Hr. destruct z as [|p|p].
  - reflexivity.
  - unfold strconv.Itoa. cbn [Z.to_int NilZero.string_of_int].
    assert (Hz : Z.of_uint (Pos.to_uint p) = Z.pos p).
    { unfold Z.of_uint. rewrite DecimalPos.Unsigned.of_to. reflexivity. }
    pose proof (Unsigned.to_uint_nonnil p) as Hn.
    rewrite (string_of_uint_nonnil _ Hn).
    rewrite <- Hz in Hr. rewrite Atoi_string_of_uint by auto. congruence.
  - unfold strconv.Itoa. cbn [Z.to_int NilZero.string_of_int].
    assert (Hz : Z.of_uint (Pos.to_uint p) = Z.pos p).
    { unfold Z.of_uint. rewrite DecimalPos.Unsigned.of_to. reflexivity. }
    pose proof (Unsigned.to_uint_nonnil p) as Hn.
    rewrite (string_of_uint_nonnil _ Hn).
    unfold strconv.Atoi. cbn [String.append].
    rewrite (digits_string_of_uint _ Hn), Hz.
    change (- Z.pos p) with (Z.neg p). rewrite Hr. reflexivity.
Qed.

(** ** Ids and the log *)

Lemma Atoi_cacheable id n : strconv.Atoi id = Some n -> cacheable id = true.
Proof.
  intros H. unfold cacheable.
  destruct (String.eqb id lastBuild) eqn:E1.
  { apply String.eqb_eq in E1. subst. discriminate H. }
  destruct (String.eqb id lastCompletedBuild) eqn:E2.
  { apply String.eqb_eq in E2. subst. discriminate H. }
  reflexivity.
Qed.

Lemma Atoi_not_lastCompletedBuild id n :
  strconv.Atoi id = Some n -> String.eqb id lastCompletedBuild = false.
Proof.
  intros H. destruct (String.eqb id lastCompletedBuild) eqn:E; [|reflexivity].
  apply String.eqb_eq in E. subst. discriminate H.
Qed.

Lemma add_logs_add_logs l1 l2 st : add_logs l2 (add_logs l1 st) = add_logs (l1 ++ l2) st.
Proof. unfold add_logs. simpl. rewrite <- app_assoc. reflexivity. Qed.

Lemma log_Println_add_logs l st : log_Println l st = add_logs [l] st.
Proof. reflexivity. Qed.

Lemma cacheKey_inj job id id' : cacheKey job id = cacheKey job id' -> id = id'.
Proof.
  unfold cacheKey. induction job as [|c job IH]; intros H.
  - change (String "-" id = String "-" id') in H. congruence.
  - change (String c (job +:+ "-" +:+ id) = String c (job +:+ "-" +:+ id')) in H.
    apply IH. congruence.
Qed.

Lemma forRange_inv {A S : Type} (I : S -> Prop) (body : S -> A -> option S) l :
  (forall x, In x l -> forall s, I s -> exists s', body s x = Some s' /\ I s') ->
  forall s, I s -> exists s', forRange body l s = Some s' /\ I s'.
Proof.
  induction l as [|x l IH]; intros Hbody s Hs; cbn [forRange].
  - eauto.
  - destruct (Hbody x (or_introl eq_refl) s Hs) as (s1 & -> & Hs1).
    apply IH; [|exact Hs1]. intros y Hy. apply Hbody. right. exact Hy.
Qed.

Lemma cacheRanked_log rank l st : cacheRanked rank st -> cacheRanked rank (log_Println l st).
Proof. intros H. exact H. Qed.

(** ** The resolver and the walk *)

Section Resolver.

Variable http_Do : list Request -> Request -> error + Response.
Variable json_Decode_JobStatus : Response -> JobStatus * option error.

Local Abbreviation Get := (GetStatusForJob http_Do json_Decode_JobStatus).
Local Abbreviation loop := (CausesOfFailures_loop http_Do json_Decode_JobStatus).
Local Abbreviation walk := (CausesOfFailures http_Do json_Decode_JobStatus).

Lemma GetStatusForJob_folder job id st :
  strings.Contains job "/" = true ->
  Get job id st = (inl errStatusPageNotFound, log_Println (LogRejecting job) st).
Proof. intros H. unfold GetStatusForJob. rewrite H. reflexivity. Qed.


(** One iteration of the loop that still has budget, on a numeric id. *)
Lemma CausesOfFailures_loop_step fuel name v set id currentID st :
  strconv.Atoi id = Some currentID ->
  loop fuel name (S (S v)) set id st =
  match Get name id st with
  | (inl err, st) =>
      if error_eqb err errStatusPageNotFound then
        loop fuel name (S v) set (strconv.Itoa (GoInt.sub currentID 1)) st
      else Some (set, log_Println (LogCouldNotFetch err) st)
  | (inr statusIterator, st) =>
      if String.eqb (Result statusIterator) "SUCCESS"
         || String.eqb (Result statusIterator) "FIXED"
      then Some (set, st)
      else
        match addActionIdsToSet http_Do json_Decode_JobStatus fuel set statusIterator
                (log_Println (LogGotActions name id) st) with
        | None => None
        | Some (set, st) =>
            loop fuel name (S v)
              (addChangeSetsToSet
                 (addCulpritIdsToSet set (Culprits statusIterator))
                 (ChangeSets statusIterator))
              (strconv.Itoa (GoInt.sub currentID 1)) st
        end
  end.
Proof.
  intros Hz. remember (S v) as v' eqn:Ev.
  cbn [CausesOfFailures_loop].
  rewrite (Atoi_not_lastCompletedBuild _ _ Hz), Hz. subst v'. cbv beta iota.
  destruct (Get name id st) as [[err|statusIterator] st']; reflexivity.
Qed.

Lemma CausesOfFailures_loop_budget fuel name set id currentID st :
  strconv.Atoi id = Some currentID ->
  loop fuel name 1 set id st = Some (set, log_Println LogMaxVisits st).
Proof.
  intros Hz. cbn [CausesOfFailures_loop].
  rewrite (Atoi_not_lastCompletedBuild _ _ Hz), Hz. reflexivity.
Qed.

Lemma CausesOfFailures_loop_folder fuel name v :
  strings.Contains name "/" = true ->
  forall set id z st, strconv.Atoi id = Some z ->
  loop fuel name (S v) set id st
  = Some (set, add_logs (repeat (LogRejecting name) v ++ [LogMaxVisits]) st).
Proof.
  intros Hf. induction v as [|v IH]; intros set id z st Hz.
  - rewrite (CausesOfFailures_loop_budget _ _ _ _ _ _ Hz). reflexivity.
  - rewrite (CausesOfFailures_loop_step _ _ _ _ _ _ _ Hz).
    rewrite GetStatusForJob_folder by exact Hf. cbn [error_eqb].
    rewrite (IH _ _ (GoInt.sub z 1)).
    + rewrite log_Println_add_logs, add_logs_add_logs. reflexivity.
    + apply Atoi_Itoa, inRange_wrap.
Qed.

(** A cacheable id whose key the cache holds is answered from the cache. *)
Lemma GetStatusForJob_hit job id st status :
  strings.Contains job "/" = false ->
  cacheable id = true ->
  cacheLookup st (cacheKey job id) = Some status ->
  Get job id st = (inr status, log_Println (LogUsingCache (cacheKey job id)) st).
Proof.
  intros Hf Hc Hl. unfold GetStatusForJob, cacheLookup in *. rewrite Hf, Hc.
  destruct st as [[loc usr pwd [m|]] reqs logs]; cbn in *; [|discriminate].
  rewrite Hl. reflexivity.
Qed.

(** What a call that goes to the network does, by what the server says. *)
Lemma GetStatusForJob_miss job id st :
  strings.Contains job "/" = false ->
  (if cacheable id then cacheLookup st (cacheKey job id) else None) = None ->
  let link := statusLink (ServerLocation (api st)) job id in
  let req := {| method := GET; url := link |} in
  let cache0 :=
    if cacheable id then Some (default ∅ (cachedStatuses (api st)))
    else cachedStatuses (api st) in
  let sent (c : option (gmap string JobStatus)) :=
    {| api := {| ServerLocation := ServerLocation (api st);
                 Username := Username (api st);
                 Password := Password (api st);
                 cachedStatuses := c |};
       requests := (requests st ++ [req])%list;
       logged := (logged st ++ [LogVisiting link])%list |} in
  Get job id st =
  match http_Do (requests st) req with
  | inl err => (inl err, sent cache0)
  | inr resp =>
      if StatusCode resp =? 404 then (inl errStatusPageNotFound, sent cache0)
      else
        match json_Decode_JobStatus resp with
        | (result, None) =>
            (inr result,
             sent (if cacheable id
                   then Some (<[cacheKey job id := result]>
                                (default ∅ (cachedStatuses (api st))))
                   else cachedStatuses (api st)))
        | (result, Some _) => (inr result, sent cache0)
        end
  end.
Proof.
  intros Hf Hl. unfold GetStatusForJob, cacheLookup in *. rewrite Hf.
  destruct st as [[loc usr pwd cache] reqs logs]. cbn in *.
  destruct (cacheable id); destruct cache as [m|]; cbn in *;
    try rewrite Hl; try rewrite lookup_empty;
    destruct (http_Do reqs _) as [err|resp]; cbn; try reflexivity;
    destruct (StatusCode resp =? 404); try reflexivity;
    destruct (json_Decode_JobStatus resp) as [result [e|]]; reflexivity.
Qed.

(** C3 (amended): for a job name that contains a path separator and any
    id, [GetStatusForJob] answers with [errStatusPageNotFound], the error
    value it also gives for a build the server does not know, sends no
    request and leaves the receiver as it was. *)
Theorem GetStatusForJob_folder_NotFound job id st :
  strings.Contains job "/" = true ->
  fst (Get job id st) = inl errStatusPageNotFound
  /\ requests (snd (Get job id st)) = requests st
  /\ api (snd (Get job id st)) = api st.
Proof.
  intros Hf. rewrite GetStatusForJob_folder by exact Hf. auto.
Qed.

(** C10: for a job name that contains a path separator and a numeric
    start id, [CausesOfFailures] returns no cause and sends no request,
    but only after the resolver rejected the job 19 times, once per
    iteration and each time with the not-found error, and the 20th
    iteration found the budget of visits used up. *)
Theorem CausesOfFailures_folder fuel name id z st :
  strings.Contains name "/" = true ->
  strconv.Atoi id = Some z ->
  walk fuel name id st
  = Some ([], add_logs (repeat (LogRejecting name) 19 ++ [LogMaxVisits]) st)
  /\ loop fuel name 20 ∅ id st
     = Some (∅, add_logs (repeat (LogRejecting name) 19 ++ [LogMaxVisits]) st)
  /\ requests (add_logs (repeat (LogRejecting name) 19 ++ [LogMaxVisits]) st)
     = requests st
  /\ forall id' st', fst (Get name id' st') = inl errStatusPageNotFound.
Proof.
  intros Hf Hz. split; [|split; [|split]].
  - unfold CausesOfFailures.
    rewrite (CausesOfFailures_loop_folder fuel name 19 Hf _ _ _ _ Hz).
    unfold mapKeysToSlice. rewrite elements_empty. reflexivity.
  - exact (CausesOfFailures_loop_folder fuel name 19 Hf _ _ _ _ Hz).
  - reflexivity.
  - intros id' st'. rewrite GetStatusForJob_folder by exact Hf. reflexivity.
Qed.


(** C5 (amended): on a call that goes to the network, an error of the
    connection is returned as it is and a 404 answer gives the not-found
    error; every other answer, whatever its status code, is a success
    that returns the record the decoder left behind, also when the
    decoder reports that the payload cannot be parsed; in that case the
    record is not stored in the cache. *)
Theorem GetStatusForJob_outcomes job id st :
  strings.Contains job "/" = false ->
  (if cacheable id then cacheLookup st (cacheKey job id) else None) = None ->
  let req := {| method := GET; url := statusLink (ServerLocation (api st)) job id |} in
  (forall err, http_Do (requests st) req = inl err ->
               fst (Get job id st) = inl err)
  /\ (forall resp, http_Do (requests st) req = inr resp ->
                   StatusCode resp = 404 ->
                   fst (Get job id st) = inl errStatusPageNotFound)
  /\ (forall resp, http_Do (requests st) req = inr resp ->
                   StatusCode resp <> 404 ->
                   fst (Get job id st) = inr (fst (json_Decode_JobStatus resp))
                   /\ (forall e, snd (json_Decode_JobStatus resp) = Some e ->
                                 forall key, cacheLookup (snd (Get job id st)) key
                                             = cacheLookup st key)).
Proof.
  intros Hf Hmiss req. rewrite GetStatusForJob_miss by assumption. fold req.
  split; [|split].
  - intros err Hdo. rewrite Hdo. reflexivity.
  - intros resp Hdo Hcode. rewrite Hdo, Hcode. reflexivity.
  - intros resp Hdo Hcode. rewrite Hdo. apply Z.eqb_neq in Hcode. rewrite Hcode.
    destruct (json_Decode_JobStatus resp) as [result [e|]]; cbn [fst snd];
      split; try reflexivity; try discriminate.
    intros _ _ key. unfold cacheLookup. cbn.
    destruct (cacheable id); [|reflexivity].
    destruct (cachedStatuses (api st)); [reflexivity|]. cbn. apply lookup_empty.
Qed.

(** C8: an iteration whose build the resolver reports as not found goes
    on with the id below and the same accumulator; so, on a fresh
    receiver, when build #10 of a job is not found, #9 is a failure whose
    only contributor is the culprit C, and #8 is a success, the walk from
    #10 returns exactly C. *)
Theorem CausesOfFailures_gap_skip :
  (forall fuel name v set id currentID st st',
      strconv.Atoi id = Some currentID ->
      Get name id st = (inl errStatusPageNotFound, st') ->
      loop fuel name (S (S v)) set id st
      = loop fuel name (S v) set (strconv.Itoa (GoInt.sub currentID 1)) st')
  /\ (forall fuel job C st r10 r9 r8 s9 s8,
        strings.Contains job "/" = false ->
        cachedStatuses (api st) = None ->
        let get id := {| method := GET; url := statusLink (ServerLocation (api st)) job id |} in
        (forall trace, http_Do trace (get "10") = inr r10) -> StatusCode r10 = 404 ->
        (forall trace, http_Do trace (get "9") = inr r9) -> StatusCode r9 <> 404 ->
        json_Decode_JobStatus r9 = (s9, None) ->
        Result s9 = "FAILURE" -> Culprits s9 = [ {| FullName := C |} ] ->
        Actions s9 = [] -> ChangeSets s9 = [] ->
        (forall trace, http_Do trace (get "8") = inr r8) -> StatusCode r8 <> 404 ->
        json_Decode_JobStatus r8 = (s8, None) ->
        Result s8 = "SUCCESS" ->
      exists st',
        loop fuel job 20 ∅ "10" st = Some ({[C]}, st')
        /\ walk fuel job "10" st = Some ([C], st')).
Proof.
  split.
  - intros fuel name v set id currentID st st' Hz Hget.
    rewrite (CausesOfFailures_loop_step _ _ _ _ _ _ _ Hz), Hget. reflexivity.
  - intros fuel job C st r10 r9 r8 s9 s8 Hf Hfresh get
      H10 Hc10 H9 Hc9 Hd9 Hr9 Hcu9 Ha9 Hch9 H8 Hc8 Hd8 Hr8.
    apply Z.eqb_neq in Hc9, Hc8.
  assert (Hloop : exists st', loop fuel job 20 ∅ "10" st = Some ({[C]}, st')).
  2:{ destruct Hloop as [st' Hloop]. exists st'. split; [exact Hloop|].
      unfold CausesOfFailures. rewrite Hloop. unfold mapKeysToSlice.
      rewrite elements_singleton. reflexivity. }
  rewrite (CausesOfFailures_loop_step _ _ _ _ "10" 10 _ eq_refl).
    rewrite GetStatusForJob_miss
      by (try exact Hf; unfold cacheLookup; rewrite Hfresh; reflexivity).
    fold (get "10"). rewrite H10, Hc10. cbn [Z.eqb Pos.eqb error_eqb].
    change (strconv.Itoa (GoInt.sub 10 1)) with "9".
    rewrite (CausesOfFailures_loop_step _ _ _ _ "9" 9 _ eq_refl).
    rewrite GetStatusForJob_miss
      by (try exact Hf; unfold cacheLookup; cbn; rewrite Hfresh; cbn;
          apply lookup_empty).
    cbn [api requests logged ServerLocation]. fold (get "9").
    rewrite H9, Hc9, Hd9, Hr9. cbn [String.eqb Ascii.eqb Bool.eqb orb].
    unfold addActionIdsToSet, addActionIdsToSet_with. rewrite Ha9. cbn [forRange].
    rewrite Hcu9, Hch9. cbn [addCulpritIdsToSet addChangeSetsToSet fold_left FullName].
    change (strconv.Itoa (GoInt.sub 9 1)) with "8".
    rewrite (CausesOfFailures_loop_step _ _ _ _ "8" 8 _ eq_refl).
    rewrite GetStatusForJob_miss.
    + cbn [api requests logged ServerLocation log_Println]. fold (get "8").
      rewrite H8, Hc8, Hd8, Hr8. cbn [String.eqb Ascii.eqb Bool.eqb orb].
      eexists. rewrite (right_id_L ∅ (∪)). reflexivity.
    + exact Hf.
    + unfold cacheLookup. cbn. rewrite Hfresh. cbn.
      rewrite lookup_insert_ne; [apply lookup_empty|].
      intros E. apply cacheKey_inj in E. discriminate E.
Qed.

(** *** Termination of the upstream recursion on ranked servers *)

Section Ranked.

Variable rank : string -> nat.
Variable location : string.
Hypothesis served : servedRanked http_Do json_Decode_JobStatus location rank.

Local Abbreviation inv := (rankedState rank location).

Lemma GetStatusForJob_ranked job id st :
  inv st ->
  inv (snd (Get job id st))
  /\ forall status, fst (Get job id st) = inr status ->
                    upstreamsBelow rank (rank (cacheKey job id)) status.
Proof.
  intros [Hst Hloc].
  destruct (strings.Contains job "/") eqn:Hf.
  { rewrite GetStatusForJob_folder by exact Hf.
    split; [split; assumption|discriminate]. }
  destruct (if cacheable id then cacheLookup st (cacheKey job id) else None)
    as [status|] eqn:Hl.
  - destruct (cacheable id) eqn:Hc; [|discriminate].
    rewrite (GetStatusForJob_hit _ _ _ _ Hf Hc Hl). cbn [fst snd]. split.
    + split; assumption.
    + intros ? [= <-]. exact (Hst _ _ Hl).
  - rewrite GetStatusForJob_miss by assumption.
    assert (Hc0 : forall reqs logs,
               inv
                 {| api := {| ServerLocation := ServerLocation (api st);
                              Username := Username (api st);
                              Password := Password (api st);
                              cachedStatuses :=
                                if cacheable id
                                then Some (default ∅ (cachedStatuses (api st)))
                                else cachedStatuses (api st) |};
                    requests := reqs; logged := logs |}).
    { intros reqs logs. split; [|exact Hloc].
      intros key status'. unfold cacheLookup. cbn.
      intros H. apply (Hst key). unfold cacheLookup.
      destruct (cacheable id); [|exact H].
      destruct (cachedStatuses (api st)); [exact H|].
      cbn in H. rewrite lookup_empty in H. discriminate H. }
    destruct (http_Do (requests st) _) as [err|resp] eqn:Hdo.
    { split; [apply Hc0|discriminate]. }
    destruct (StatusCode resp =? 404) eqn:Hcode.
    { split; [apply Hc0|discriminate]. }
    apply Z.eqb_neq in Hcode.
    rewrite Hloc in Hdo. pose proof (served _ _ _ _ Hdo Hcode) as Hrec.
    destruct (json_Decode_JobStatus resp) as [result [e|]]; cbn [fst snd] in *.
    { split; [apply Hc0|]. intros ? [= <-]. exact Hrec. }
    split; [|intros ? [= <-]; exact Hrec].
    split; [|exact Hloc].
    intros key status'. unfold cacheLookup. cbn.
    destruct (cacheable id); [|apply (Hst key)].
    cbn. rewrite lookup_insert. case_decide as Hk.
    + intros [= <-]. subst key. exact Hrec.
    + intros H. apply (Hst key). unfold cacheLookup.
      destruct (cachedStatuses (api st)); [exact H|].
      cbn in H. rewrite lookup_empty in H. discriminate H.
Qed.

(** The body of [addActionIdsToSet] returns when the calls it makes
    for the upstream causes of the record do. *)
Lemma addActionIdsToSet_with_ranked (ac : AddCauses) bound status :
  upstreamsBelow rank bound status ->
  (forall set p b st,
      (rank (cacheKey p (strconv.Itoa b)) < bound)%nat -> inv st ->
      exists e set' st', ac set p b st = Some (e, set', st') /\ inv st') ->
  forall set st, inv st ->
  exists set' st',
    addActionIdsToSet_with ac set status st = Some (set', st')
    /\ inv st'.
Proof.
  intros Hup Hac set st Hst. unfold addActionIdsToSet_with.
  destruct (forRange_inv (fun acc : gset string * State => inv (snd acc))
              (fun acc action =>
                 forRange (classifyCause ac status) (Causes action) acc)
              (Actions status)) with (s := (set, st)) as ([set' st'] & Hr & Hi).
  - intros action Haction acc Hacc.
    apply forRange_inv; [|exact Hacc].
    intros cause Hcause [set1 st1] H1. cbn [snd] in H1.
    unfold classifyCause.
    destruct (String.eqb (UserID cause) "") eqn:Eu; cbn [negb].
    2:{ eexists. split; [reflexivity|exact H1]. }
    destruct (negb (UpstreamBuild cause =? 0)
              && negb (String.eqb (UpstreamProject cause) "")) eqn:Eb.
    + assert (Hlt : (rank (upstreamKey cause) < bound)%nat).
      { apply (Hup action cause Haction Hcause). unfold isUpstream.
        rewrite Eu. exact Eb. }
      destruct (Hac set1 _ _ st1 Hlt H1) as (e & set2 & st2 & -> & H2).
      destruct e; eexists; (split; [reflexivity|]); exact H2.
    + destruct (String.eqb (ShortDescription cause) "Started by an SCM change").
      { eexists. split; [reflexivity|exact H1]. }
      destruct (strings.HasPrefix (ShortDescription cause) "commit notification");
        eexists; (split; [reflexivity|exact H1]).
  - exact Hst.
  - exists set', st'. split; assumption.
Qed.

Lemma addCauses_ranked n :
  forall set p b st,
    (rank (cacheKey p (strconv.Itoa b)) < n)%nat -> inv st ->
    exists e set' st',
      addCauses http_Do json_Decode_JobStatus n set p b st = Some (e, set', st')
      /\ inv st'.
Proof.
  induction n as [|n IH]; intros set p b st Hlt Hst; [lia|].
  cbn [addCauses].
  destruct (GetStatusForJob_ranked p (strconv.Itoa b) st Hst) as [Hst1 Hrec].
  destruct (Get p (strconv.Itoa b) st) as [[err|status] st1]; cbn [fst snd] in *.
  - eauto.
  - destruct (addActionIdsToSet_with_ranked
                (addCauses http_Do json_Decode_JobStatus n)
                (rank (cacheKey p (strconv.Itoa b))) status (Hrec _ eq_refl))
      with (set := set) (st := st1) as (set' & st' & -> & Hst'); eauto.
    intros set0 p0 b0 st0 H0 Hst0. apply IH; [lia|exact Hst0].
Qed.

Lemma CausesOfFailures_loop_ranked N fuel name :
  (forall key, (rank key < N)%nat) -> (N <= fuel)%nat ->
  forall v set id st,
    inv st ->
    exists set' st', loop fuel name v set id st = Some (set', st').
Proof.
  intros Hbound Hfuel. induction v as [|v IH]; intros set id st Hst.
  - cbn [CausesOfFailures_loop].
    destruct (String.eqb id lastCompletedBuild); [eauto|].
    destruct (strconv.Atoi id); eauto.
  - destruct (strconv.Atoi id) as [currentID|] eqn:Hz.
    2:{ cbn [CausesOfFailures_loop]. rewrite Hz.
        destruct (String.eqb id lastCompletedBuild); eauto. }
    destruct v as [|v].
    { rewrite (CausesOfFailures_loop_budget _ _ _ _ _ _ Hz). eauto. }
    rewrite (CausesOfFailures_loop_step _ _ _ _ _ _ _ Hz).
    destruct (GetStatusForJob_ranked name id st Hst) as [Hst1 Hrec].
    destruct (Get name id st) as [[err|status] st1]; cbn [fst snd] in *.
    + destruct (error_eqb err errStatusPageNotFound); eauto.
    + destruct (String.eqb (Result status) "SUCCESS"
                || String.eqb (Result status) "FIXED"); [eauto|].
      unfold addActionIdsToSet.
      destruct (addActionIdsToSet_with_ranked
                  (addCauses http_Do json_Decode_JobStatus fuel)
                  (rank (cacheKey name id)) status (Hrec _ eq_refl))
        with (set := set) (st := log_Println (LogGotActions name id) st1)
        as (set' & st' & -> & Hst'); eauto.
      intros set0 p0 b0 st0 H0 Hst0. apply addCauses_ranked; [|exact Hst0].
      pose proof (Hbound (cacheKey p0 (strconv.Itoa b0))). lia.
Qed.

End Ranked.


End Resolver.

(** ** The resolver on concrete servers *)

Import Worlds.

(** C3, as stated, fails: the error for the folder-style job name
    "team/project" is the very value returned for a build that the server
    answers with 404; [CausesOfFailures] takes both for a gap. *)
Lemma GetStatusForJob_folder_not_distinct :
  fst (GetStatusForJob purgedServer purgedDecoder "team/project" "42" fresh)
  = inl errStatusPageNotFound
  /\ fst (GetStatusForJob purgedServer purgedDecoder "job" "10" fresh)
     = inl errStatusPageNotFound
  /\ ~ (fst (GetStatusForJob purgedServer purgedDecoder "team/project" "42" fresh)
        <> fst (GetStatusForJob purgedServer purgedDecoder "job" "10" fresh)).
Proof.
  split; [|split].
  - vm_compute. reflexivity.
  - vm_compute. reflexivity.
  - intros H. apply H. vm_compute. reflexivity.
Qed.

Lemma GetStatusForJob_folder_NotFound_witness :
  fst (GetStatusForJob purgedServer purgedDecoder "team/project" "42" fresh)
  = inl errStatusPageNotFound
  /\ requests (snd (GetStatusForJob purgedServer purgedDecoder "team/project" "42" fresh))
     = requests fresh
  /\ api (snd (GetStatusForJob purgedServer purgedDecoder "team/project" "42" fresh))
     = api fresh.
Proof.
  apply (GetStatusForJob_folder_NotFound purgedServer purgedDecoder "team/project" "42" fresh).
  reflexivity.
Defined.

Lemma CausesOfFailures_folder_witness :
  CausesOfFailures purgedServer purgedDecoder 0 "team/project" "10" fresh
  = Some ([], add_logs (repeat (LogRejecting "team/project") 19 ++ [LogMaxVisits]) fresh).
Proof.
  apply (CausesOfFailures_folder purgedServer purgedDecoder 0 "team/project" "10" 10 fresh);
    reflexivity.
Defined.


(** C5, as stated, fails: the server answers build #42 with status 500 and
    a page that the decoder rejects, and [GetStatusForJob] returns the zero
    record with no error. *)
Lemma GetStatusForJob_undecodable_is_success :
  snd (garbageDecoder {| StatusCode := 500; X_Text_Size := "";
                         Body := "<html>oops</html>"; BodyErr := None |})
  = Some (errorString "invalid character")
  /\ fst (GetStatusForJob garbageServer garbageDecoder "job" "42" fresh)
     = inr zeroJobStatus.
Proof. split; vm_compute; reflexivity. Qed.

Lemma GetStatusForJob_outcomes_witness :
  fst (GetStatusForJob garbageServer garbageDecoder "job" "42" fresh) = inr zeroJobStatus
  /\ forall key,
       cacheLookup (snd (GetStatusForJob garbageServer garbageDecoder "job" "42" fresh)) key
       = cacheLookup fresh key.
Proof.
  destruct (GetStatusForJob_outcomes garbageServer garbageDecoder "job" "42" fresh
              eq_refl eq_refl) as (_ & _ & H).
  destruct (H {| StatusCode := 500; X_Text_Size := "";
                 Body := "<html>oops</html>"; BodyErr := None |} eq_refl)
    as [H1 H2].
  - intros E. discriminate E.
  - split.
    + exact H1.
    + exact (H2 (errorString "invalid character") eq_refl).
Defined.

Lemma CausesOfFailures_gap_skip_witness :
  exists st',
    CausesOfFailures_loop purgedServer purgedDecoder 0 "job" 20 ∅ "10" fresh
    = Some ({["C"]}, st')
    /\ CausesOfFailures purgedServer purgedDecoder 0 "job" "10" fresh = Some (["C"], st').
Proof.
  refine (proj2 (CausesOfFailures_gap_skip purgedServer purgedDecoder)
            0%nat "job" "C" fresh
            {| StatusCode := 404; X_Text_Size := ""; Body := ""; BodyErr := None |}
            {| StatusCode := 200; X_Text_Size := ""; Body := "nine"; BodyErr := None |}
            {| StatusCode := 200; X_Text_Size := ""; Body := "eight"; BodyErr := None |}
            (build "FAILURE" "C" []) (build "SUCCESS" "D" [])
            _ _ _ _ _ _ _ _ _ _ _ _ _ _ _);
    try reflexivity; try (intros E; discriminate E).
Defined.

(** C2: on a job whose builds #1 to #25 all failed, each by its own
    culprit, the walk from #25 calls the resolver 19 times, not 20: it
    sends the 19 requests for #25 down to #7 and returns 19 culprits; run
    again on the warm cache it sends no request and calls the resolver 19
    times more. *)
Theorem CausesOfFailures_streak_visits_19 :
  option_map (fun r => map url (requests (snd r))) streakRun1
  = Some (map (fun i => link "job" (strconv.Itoa (Z.of_nat i))) (rev (seq 7 19)))
  /\ option_map (fun r => (length (fst r), resolverCalls (snd r))) streakRun1
     = Some (19%nat, 19%nat)
  /\ option_map (fun r => (length (requests (snd r)), resolverCalls (snd r))) streakRun2
     = Some (19%nat, 38%nat).
Proof. repeat split; vm_compute; reflexivity. Qed.

(** ** A cycle of upstream triggers *)

Lemma cycle_GetStatusForJob_A st :
  cycleState st ->
  exists st', GetStatusForJob cycleServer cycleDecoder "A" "1" st = (inr statusA, st')
              /\ cycleState st'.
Proof.
  intros (Hloc & HA & HB). destruct HA as [HA|HA].
  - rewrite GetStatusForJob_miss by (try reflexivity; exact HA).
    rewrite Hloc.
    change (cycleServer (requests st)
              {| method := GET; url := statusLink location "A" "1" |})
      with (ok "a1").
    eexists. split; [reflexivity|].
    unfold cycleState, cacheLookup in *. cbn.
    split; [reflexivity|]. split.
    + right. apply lookup_insert_eq.
    + rewrite lookup_insert_ne by discriminate.
      destruct (cachedStatuses (api st)); [exact HB|]. left. apply lookup_empty.
  - rewrite (GetStatusForJob_hit _ _ "A" "1" st statusA eq_refl eq_refl HA).
    eexists. split; [reflexivity|]. split; [exact Hloc|]. split; [right; exact HA|exact HB].
Qed.

Lemma cycle_GetStatusForJob_B st :
  cycleState st ->
  exists st', GetStatusForJob cycleServer cycleDecoder "B" "1" st = (inr statusB, st')
              /\ cycleState st'.
Proof.
  intros (Hloc & HA & HB). destruct HB as [HB|HB].
  - rewrite GetStatusForJob_miss by (try reflexivity; exact HB).
    rewrite Hloc.
    change (cycleServer (requests st)
              {| method := GET; url := statusLink location "B" "1" |})
      with (ok "b1").
    eexists. split; [reflexivity|].
    unfold cycleState, cacheLookup in *. cbn.
    split; [reflexivity|]. split.
    + rewrite lookup_insert_ne by discriminate.
      destruct (cachedStatuses (api st)); [exact HA|]. left. apply lookup_empty.
    + right. apply lookup_insert_eq.
  - rewrite (GetStatusForJob_hit _ _ "B" "1" st statusB eq_refl eq_refl HB).
    eexists. split; [reflexivity|]. split; [exact Hloc|]. split; [exact HA|right; exact HB].
Qed.

(** However deep the stack, a call of [addCauses] for A#1 or for B#1 does
    not return. *)
Lemma cycle_addCauses fuel :
  forall set st,
    cycleState st ->
    addCauses cycleServer cycleDecoder fuel set "A" 1 st = None
    /\ addCauses cycleServer cycleDecoder fuel set "B" 1 st = None.
Proof.
  induction fuel as [|fuel IH]; intros set st Hst; [split; reflexivity|].
  split; cbn [addCauses]; change (strconv.Itoa 1) with "1".
  - destruct (cycle_GetStatusForJob_A st Hst) as (st' & -> & Hst').
    unfold addActionIdsToSet_with. cbn.
    rewrite (proj2 (IH set st' Hst')). reflexivity.
  - destruct (cycle_GetStatusForJob_B st Hst) as (st' & -> & Hst').
    unfold addActionIdsToSet_with. cbn.
    rewrite (proj1 (IH set st' Hst')). reflexivity.
Qed.

Lemma cycle_addActionIdsToSet fuel set st :
  cycleState st ->
  addActionIdsToSet cycleServer cycleDecoder fuel set statusA st = None.
Proof.
  intros Hst. unfold addActionIdsToSet, addActionIdsToSet_with. cbn.
  rewrite (proj2 (cycle_addCauses fuel set st Hst)). reflexivity.
Qed.

Lemma cycle_fresh : cycleState fresh.
Proof. split; [reflexivity|]. split; left; reflexivity. Qed.


(** ** A server without cycle *)

Lemma cacheKey_up7 job id : cacheKey job id = "up-7" -> job = "up" /\ id = "7".
Proof.
  unfold cacheKey. intros H.
  destruct job as [|c1 job]; vm_compute in H; [discriminate H|].
  injection H as -> H.
  destruct job as [|c2 job]; vm_compute in H; [discriminate H|].
  injection H as -> H.
  destruct job as [|c3 job]; vm_compute in H.
  { injection H as <-. split; reflexivity. }
  injection H as -> H.
  destruct job as [|c4 job]; vm_compute in H; [discriminate H|].
  injection H as -> H.
  destruct job as [|c5 job]; vm_compute in H; discriminate H.
Qed.

Lemma diamond_served : servedRanked diamondServer diamondDecoder location diamondRank.
Proof.
  intros trace job id resp Hdo Hcode.
  unfold diamondServer, tableServer in Hdo. cbn [url assoc] in Hdo.
  destruct (String.eqb (statusLink location job id) (link "down" "5")) eqn:E5.
  { injection Hdo as <-.
    change (fst (diamondDecoder _)) with statusDown.
    intros action cause Ha Hc _.
    assert (cause = upstream "up" 7) as ->.
    { cbn in Ha. destruct Ha as [<-|[<-|[]]]; cbn in Hc; destruct Hc as [<-|[]];
        reflexivity. }
    change (diamondRank (upstreamKey (upstream "up" 7))) with 0%nat.
    unfold diamondRank.
    destruct (String.eqb (cacheKey job id) "up-7") eqn:E; [|lia].
    apply String.eqb_eq in E. apply cacheKey_up7 in E as [-> ->].
    vm_compute in E5. discriminate E5. }
  destruct (String.eqb (statusLink location job id) (link "down" "4")) eqn:E4.
  { injection Hdo as <-. intros action cause Ha. destruct Ha. }
  destruct (String.eqb (statusLink location job id) (link "up" "7")) eqn:E7.
  { injection Hdo as <-. intros action cause Ha Hc Hup.
    cbn in Ha. destruct Ha as [<-|[]]. cbn in Hc. destruct Hc as [<-|[]].
    discriminate Hup. }
  injection Hdo as <-. exfalso. apply Hcode. reflexivity.
Qed.


(** ** The console tail *)

Lemma Atoi_inRange s z : strconv.Atoi s = Some z -> GoInt.inRange z = true.
Proof.
  unfold strconv.Atoi. intros H.
  destruct (match s with
            | String "+" r => strconv.digits r
            | String "-" r => match strconv.digits r with
                              | Some n => Some (- n)
                              | None => None
                              end
            | _ => strconv.digits s
            end) as [z'|]; [|discriminate H].
  destruct (GoInt.inRange z') eqn:E; [|discriminate H].
  injection H as <-. exact E.
Qed.

(** The swap loop reverses the slice. *)
Lemma swapLoop_step steps i (l : list string) a b :
  l !! i = Some a -> l !! (length l - i - 1)%nat = Some b ->
  swapLoop (S steps) i l = swapLoop steps (S i) (<[(length l - i - 1)%nat := a]> (<[i := b]> l)).
Proof. intros Ha Hb. cbn [swapLoop]. rewrite Ha, Hb. reflexivity. Qed.

Local Ltac lengths := repeat (rewrite length_app || cbn [length]); try lia.
Local Ltac assoc_right := repeat (rewrite <- app_assoc || cbn [app]).

Lemma swapLoop_rev n :
  forall mid pre post : list string,
    length mid = n -> length pre = length post ->
    swapLoop (length mid / 2)%nat (length pre) (pre ++ mid ++ post)%list
    = (pre ++ rev mid ++ post)%list.
Proof.
  induction n as [n IH] using lt_wf_ind. intros mid pre post Hn Hlen.
  destruct mid as [|x mid]; [reflexivity|].
  destruct mid as [|y mid _] using rev_ind; [reflexivity|].
  assert (Hsteps : (length (x :: mid ++ [y]) / 2 = S (length mid / 2))%nat).
  { repeat (rewrite length_app || cbn [length]).
    replace (S (length mid + 1))%nat with (length mid + 1 * 2)%nat by lia.
    rewrite Nat.div_add by lia. lia. }
  rewrite Hsteps.
  set (l := (pre ++ (x :: mid ++ [y]) ++ post)%list).
  assert (Hl : l = ((pre ++ x :: mid) ++ y :: post)%list).
  { unfold l. assoc_right. reflexivity. }
  assert (Hj : (length l - length pre - 1 = length (pre ++ x :: mid))%nat).
  { rewrite Hl. lengths. }
  rewrite (swapLoop_step _ _ l x y).
  - rewrite Hj.
    assert (H1 : <[length pre := y]> l = ((pre ++ y :: mid) ++ y :: post)%list).
    { unfold l. cbn. rewrite insert_app_r_alt by lia. rewrite Nat.sub_diag. cbn.
      assoc_right. reflexivity. }
    rewrite H1.
    assert (Hlen' : length (pre ++ x :: mid) = length (pre ++ y :: mid)).
    { lengths. }
    rewrite Hlen'. rewrite insert_app_r_alt by lia. rewrite Nat.sub_diag. cbn [insert list_insert].
    replace ((pre ++ y :: mid) ++ x :: post)%list
      with ((pre ++ [y]) ++ mid ++ (x :: post))%list
      by (assoc_right; reflexivity).
    replace (S (length pre)) with (length (pre ++ [y])) by lengths.
    rewrite (IH (length mid)).
    + cbn [rev]. rewrite rev_app_distr. assoc_right. reflexivity.
    + subst n. lengths.
    + reflexivity.
    + lengths.
  - unfold l. cbn. apply list_lookup_middle. reflexivity.
  - rewrite Hj, Hl. apply list_lookup_middle. reflexivity.
Qed.

Lemma reverseInPlace_rev (l : list string) : reverseInPlace l = rev l.
Proof.
  unfold reverseInPlace.
  pose proof (swapLoop_rev (length l) l [] [] eq_refl eq_refl) as H.
  cbn [length app] in H. rewrite !app_nil_r in H. exact H.
Qed.

Section Console.

Variable http_Do : list Request -> Request -> error + Response.
Variable json_Decode_TestCaseResult : Response -> TestCaseResult * option error.

Local Abbreviation tail := (GetLastLogLines http_Do).

(** What [GetLastLogLines] does once the size probe answered. *)
Lemma GetLastLogLines_probed job id lineCount st probe size :
  let linkForSize := logLink (ServerLocation (api st)) job id in
  let head := {| method := HEAD; url := linkForSize |} in
  http_Do (requests st) head = inr probe ->
  StatusCode probe = 200 ->
  strconv.Atoi (X_Text_Size probe) = Some size ->
  tail job id lineCount st
  = fetchLinesForLastLogLines http_Do
      (linkForSize +:+ "?start=" +:+ strconv.Itoa (GoInt.sub size sizeOfSuffix))
      lineCount
      {| api := api st; requests := (requests st ++ [head])%list; logged := logged st |}.
Proof.
  intros linkForSize head Hdo Hcode Hsize.
  unfold GetLastLogLines, fetchSizeForLastLogLines, http_Head.
  fold linkForSize. fold head. rewrite Hdo, Hcode, Hsize. cbn [Z.eqb Pos.eqb negb].
  destruct (String.eqb (X_Text_Size probe) "") eqn:E; [|reflexivity].
  apply String.eqb_eq in E. rewrite E in Hsize. discriminate Hsize.
Qed.

(** C6 (amended): once the size probe reported a total size, the tail is
    fetched from the byte offset [size - 2048], computed on Go's [int]
    with no clamp at zero; this is [max(0, size - 2048)] whenever the
    size is at least the 2048 bytes of the window. *)
Theorem GetLastLogLines_offset job id lineCount st probe size :
  let linkForSize := logLink (ServerLocation (api st)) job id in
  let head := {| method := HEAD; url := linkForSize |} in
  http_Do (requests st) head = inr probe ->
  StatusCode probe = 200 ->
  strconv.Atoi (X_Text_Size probe) = Some size ->
  requests (snd (tail job id lineCount st))
  = (requests st
       ++ [ head;
            {| method := GET;
               url := linkForSize +:+ "?start="
                        +:+ strconv.Itoa (GoInt.sub size sizeOfSuffix) |} ])%list
  /\ (sizeOfSuffix <= size ->
      GoInt.sub size sizeOfSuffix = Z.max 0 (size - sizeOfSuffix)).
Proof.
  intros linkForSize head Hdo Hcode Hsize. split.
  - rewrite (GetLastLogLines_probed job id lineCount st probe size Hdo Hcode Hsize).
    fold linkForSize. fold head.
    unfold fetchLinesForLastLogLines, http_Get. cbn [requests api logged].
    destruct (http_Do (requests st ++ [head])%list _) as [err|respData];
      cbn [snd requests].
    + rewrite <- app_assoc. reflexivity.
    + destruct (negb (StatusCode respData =? 200)); cbn [snd requests].
      * rewrite <- app_assoc. reflexivity.
      * destruct (BodyErr respData); cbn [snd requests];
          rewrite <- app_assoc; reflexivity.
  - intros Hge. apply Atoi_inRange in Hsize.
    unfold GoInt.sub. rewrite wrap_inRange; [lia|].
    unfold GoInt.inRange, GoInt.minInt, GoInt.maxInt, sizeOfSuffix in *.
    apply andb_true_iff in Hsize as [H1 H2]. apply Z.leb_le in H1, H2.
    apply andb_true_iff. split; apply Z.leb_le; lia.
Qed.

(** C7: when the tail that the server sends is the buffer
    ["a\nb\nc\nd\n"], [GetLastLogLines] with a line count of 3 returns
    b, c, d in this order: the scan collects d, c, b, newest first, and
    the swap loop, which reverses any slice, turns them round. *)
Theorem GetLastLogLines_tail_order job id st probe size respData :
  let linkForSize := logLink (ServerLocation (api st)) job id in
  let head := {| method := HEAD; url := linkForSize |} in
  http_Do (requests st) head = inr probe ->
  StatusCode probe = 200 ->
  strconv.Atoi (X_Text_Size probe) = Some size ->
  http_Do (requests st ++ [head])%list
    {| method := GET;
       url := linkForSize +:+ "?start=" +:+ strconv.Itoa (GoInt.sub size sizeOfSuffix) |}
  = inr respData ->
  StatusCode respData = 200 ->
  BodyErr respData = None ->
  Body respData = Worlds.logBuffer ->
  fst (tail job id 3 st) = inr ["b"; "c"; "d"]
  /\ collectLines (Body respData) 3 = ["d"; "c"; "b"]
  /\ forall lines : list string, reverseInPlace lines = rev lines.
Proof.
  intros linkForSize head Hdo Hcode Hsize Hget Hcode' Herr Hbody.
  split; [|split].
  - rewrite (GetLastLogLines_probed job id 3 st probe size Hdo Hcode Hsize).
    fold linkForSize. fold head.
    unfold fetchLinesForLastLogLines, http_Get. cbn [requests api logged].
    rewrite Hget, Hcode', Herr, Hbody. cbn [Z.eqb Pos.eqb negb fst].
    rewrite reverseInPlace_rev. vm_compute. reflexivity.
  - rewrite Hbody. vm_compute. reflexivity.
  - exact reverseInPlace_rev.
Qed.

(** *** The failed tests *)

Lemma collectFailed_cases (cases results : list TestCase) :
  fold_left
    (fun results aCase =>
       if negb (String.eqb (Status aCase) "PASSED")
          && negb (String.eqb (Status aCase) "SKIPPED")
          && negb (String.eqb (Status aCase) "FIXED")
       then (results ++ [aCase])%list
       else results)
    cases results
  = (results ++ List.filter failedCase cases)%list.
Proof.
  revert results. induction cases as [|aCase cases IH]; intros results;
    cbn [fold_left List.filter].
  - rewrite app_nil_r. reflexivity.
  - rewrite IH. unfold failedCase at 2.
    destruct (negb (String.eqb (Status aCase) "PASSED")
              && negb (String.eqb (Status aCase) "SKIPPED")
              && negb (String.eqb (Status aCase) "FIXED")).
    + rewrite <- app_assoc. reflexivity.
    + reflexivity.
Qed.

Lemma collectFailed_filter received :
  collectFailed received = List.filter failedCase (flat_map Cases (Suites received)).
Proof.
  unfold collectFailed.
  enough (H : forall suites results,
             fold_left
               (fun results suite =>
                  fold_left
                    (fun results aCase =>
                       if negb (String.eqb (Status aCase) "PASSED")
                          && negb (String.eqb (Status aCase) "SKIPPED")
                          && negb (String.eqb (Status aCase) "FIXED")
                       then (results ++ [aCase])%list
                       else results)
                    (Cases suite) results)
               suites results
             = (results ++ List.filter failedCase (flat_map Cases suites))%list).
  { rewrite H. reflexivity. }
  induction suites as [|suite suites IH]; intros results; cbn [fold_left flat_map].
  - cbn. rewrite app_nil_r. reflexivity.
  - rewrite IH, collectFailed_cases, List.filter_app, <- app_assoc. reflexivity.
Qed.

(** C9: for a report that the server sends and the decoder accepts,
    [GetFailedTestListFor] returns the cases of the suites, in the order
    of the report, without those whose status is PASSED, SKIPPED or
    FIXED: a case is returned exactly when it is in the report with
    another status. *)
Theorem GetFailedTestListFor_filter job id st resp received :
  http_Do (requests st)
    {| method := GET; url := testReportLink (ServerLocation (api st)) job id |}
  = inr resp ->
  StatusCode resp <> 404 ->
  json_Decode_TestCaseResult resp = (received, None) ->
  let results := List.filter failedCase (flat_map Cases (Suites received)) in
  fst (GetFailedTestListFor http_Do json_Decode_TestCaseResult job id st) = inr results
  /\ forall aCase,
       In aCase results <->
       In aCase (flat_map Cases (Suites received))
       /\ Status aCase <> "PASSED" /\ Status aCase <> "SKIPPED"
       /\ Status aCase <> "FIXED".
Proof.
  intros Hdo Hcode Hdec results. split.
  - unfold GetFailedTestListFor, http_Get. cbn [requests api logged log_Println].
    rewrite Hdo. apply Z.eqb_neq in Hcode. rewrite Hcode, Hdec.
    cbn [fst]. rewrite collectFailed_filter. reflexivity.
  - intros aCase. unfold results. rewrite filter_In. unfold failedCase.
    rewrite !andb_true_iff, !negb_true_iff.
    rewrite <- !not_true_iff_false, !String.eqb_eq. tauto.
Qed.

End Console.

(** ** The console tail and the failed tests on concrete servers *)

(** C6, as stated, fails: for a log of 8 bytes the tail is asked from the
    offset -2040, not from [max(0, 8 - 2048)], which is 0. *)
Lemma GetLastLogLines_negative_offset :
  requests (snd (GetLastLogLines logServer "job" "7" 3 fresh))
  = [ {| method := HEAD; url := logLink location "job" "7" |};
      {| method := GET; url := logLink location "job" "7" +:+ "?start=-2040" |} ]
  /\ GoInt.sub 8 sizeOfSuffix = -2040
  /\ Z.max 0 (8 - sizeOfSuffix) = 0.
Proof. repeat split; vm_compute; reflexivity. Qed.

Lemma GetLastLogLines_offset_witness :
  requests (snd (GetLastLogLines bigLogServer "job" "7" 3 fresh))
  = [ {| method := HEAD; url := logLink location "job" "7" |};
      {| method := GET; url := logLink location "job" "7" +:+ "?start=2952" |} ]
  /\ (sizeOfSuffix <= 5000 -> GoInt.sub 5000 sizeOfSuffix = Z.max 0 (5000 - sizeOfSuffix)).
Proof.
  exact (GetLastLogLines_offset bigLogServer "job" "7" 3 fresh
           {| StatusCode := 200; X_Text_Size := "5000"; Body := ""; BodyErr := None |}
           5000 eq_refl eq_refl eq_refl).
Defined.

Lemma GetLastLogLines_tail_order_witness :
  fst (GetLastLogLines logServer "job" "7" 3 fresh) = inr ["b"; "c"; "d"].
Proof.
  exact (proj1 (GetLastLogLines_tail_order logServer "job" "7" fresh
                  {| StatusCode := 200; X_Text_Size := "8"; Body := ""; BodyErr := None |}
                  8
                  {| StatusCode := 200; X_Text_Size := ""; Body := logBuffer;
                     BodyErr := None |}
                  eq_refl eq_refl eq_refl eq_refl eq_refl eq_refl eq_refl)).
Defined.

Lemma GetFailedTestListFor_filter_witness :
  fst (GetFailedTestListFor reportServer reportDecoder "job" "7" fresh)
  = inr [ testCase "t1" "FAILED"; testCase "t3" "REGRESSION"; testCase "t6" "FAILED" ].
Proof.
  refine (proj1 (GetFailedTestListFor_filter reportServer reportDecoder "job" "7" fresh
                   {| StatusCode := 200; X_Text_Size := ""; Body := "report";
                      BodyErr := None |}
                   report eq_refl _ eq_refl)).
  intros E. discriminate E.
Defined.

(** ** More on the resolver *)

Lemma append_assoc_string (a b c : string) : (a +:+ b) +:+ c = a +:+ (b +:+ c).
Proof.
  induction a as [|ch a IH].
  - reflexivity.
  - change (String ch ((a +:+ b) +:+ c) = String ch (a +:+ (b +:+ c))).
    rewrite IH. reflexivity.
Qed.

Section ResolverFacts.

Variable http_Do : list Request -> Request -> error + Response.
Variable json_Decode_JobStatus : Response -> JobStatus * option error.

Local Abbreviation Get := (GetStatusForJob http_Do json_Decode_JobStatus).

(** The state of a call that went to the network, with the cache [c]. *)
Lemma cacheLookup_made (a : ServerAPI) reqs logs key :
  cacheLookup
    {| api := {| ServerLocation := ServerLocation a; Username := Username a;
                 Password := Password a;
                 cachedStatuses := Some (default ∅ (cachedStatuses a)) |};
       requests := reqs; logged := logs |} key
  = cacheLookup {| api := a; requests := reqs; logged := logs |} key.
Proof.
  unfold cacheLookup. cbn. destruct (cachedStatuses a); [reflexivity|].
  cbn. apply lookup_empty.
Qed.

(** X1: the cache only grows: whatever a call of [GetStatusForJob] does,
    a record that the cache held before the call is still held, under the
    same key, after it. *)
Theorem GetStatusForJob_cache_grows job id st key status :
  cacheLookup st key = Some status ->
  cacheLookup (snd (Get job id st)) key = Some status.
Proof.
  intros H.
  destruct (strings.Contains job "/") eqn:Hf.
  { rewrite GetStatusForJob_folder by exact Hf. exact H. }
  destruct (if cacheable id then cacheLookup st (cacheKey job id) else None)
    as [cached|] eqn:Hl.
  { destruct (cacheable id) eqn:Hc; [|discriminate].
    rewrite (GetStatusForJob_hit _ _ _ _ _ _ Hf Hc Hl). exact H. }
  rewrite GetStatusForJob_miss by assumption.
  assert (H0 : forall reqs logs,
             cacheLookup
               {| api := {| ServerLocation := ServerLocation (api st);
                            Username := Username (api st);
                            Password := Password (api st);
                            cachedStatuses :=
                              if cacheable id
                              then Some (default ∅ (cachedStatuses (api st)))
                              else cachedStatuses (api st) |};
                  requests := reqs; logged := logs |} key = Some status).
  { intros reqs logs. destruct (cacheable id).
    - rewrite cacheLookup_made. exact H.
    - exact H. }
  destruct (http_Do (requests st) _) as [err|resp]; [apply H0|].
  destruct (StatusCode resp =? 404); [apply H0|].
  destruct (json_Decode_JobStatus resp) as [result [e|]]; [apply H0|].
  cbn [snd]. destruct (cacheable id) eqn:Hc; [|exact H].
  unfold cacheLookup in *. cbn.
  rewrite lookup_insert_ne.
  - destruct (cachedStatuses (api st)); [exact H|discriminate H].
  - intros <-. rewrite H in Hl. discriminate Hl.
Qed.

(** X2: a call sends at most one request, and it sends one exactly when
    the job name has no path separator and the id is not answered from the
    cache; the request is the GET of the status link of the job and id. *)
Theorem GetStatusForJob_requests job id st :
  requests (snd (Get job id st))
  = (requests st
       ++ if strings.Contains job "/" then []
          else match (if cacheable id then cacheLookup st (cacheKey job id) else None) with
               | Some _ => []
               | None => [ {| method := GET;
                              url := statusLink (ServerLocation (api st)) job id |} ]
               end)%list.
Proof.
  destruct (strings.Contains job "/") eqn:Hf.
  { rewrite GetStatusForJob_folder by exact Hf. cbn. rewrite app_nil_r. reflexivity. }
  destruct (if cacheable id then cacheLookup st (cacheKey job id) else None)
    as [cached|] eqn:Hl.
  { destruct (cacheable id) eqn:Hc; [|discriminate].
    rewrite (GetStatusForJob_hit _ _ _ _ _ _ Hf Hc Hl). cbn. rewrite app_nil_r.
    reflexivity. }
  rewrite GetStatusForJob_miss by assumption.
  destruct (http_Do (requests st) _) as [err|resp]; [reflexivity|].
  destruct (StatusCode resp =? 404); [reflexivity|].
  destruct (json_Decode_JobStatus resp) as [result [e|]]; reflexivity.
Qed.

(** X3: a call that returns an error caches nothing: what the cache holds
    under any key is the same after the call as before it. *)
Theorem GetStatusForJob_error_not_cached job id st err :
  fst (Get job id st) = inl err ->
  forall key, cacheLookup (snd (Get job id st)) key = cacheLookup st key.
Proof.
  intros Herr key. revert Herr.
  destruct (strings.Contains job "/") eqn:Hf.
  { rewrite GetStatusForJob_folder by exact Hf. reflexivity. }
  destruct (if cacheable id then cacheLookup st (cacheKey job id) else None)
    as [cached|] eqn:Hl.
  { destruct (cacheable id) eqn:Hc; [|discriminate].
    rewrite (GetStatusForJob_hit _ _ _ _ _ _ Hf Hc Hl). discriminate. }
  rewrite GetStatusForJob_miss by assumption.
  assert (H0 : forall reqs logs,
             cacheLookup
               {| api := {| ServerLocation := ServerLocation (api st);
                            Username := Username (api st);
                            Password := Password (api st);
                            cachedStatuses :=
                              if cacheable id
                              then Some (default ∅ (cachedStatuses (api st)))
                              else cachedStatuses (api st) |};
                  requests := reqs; logged := logs |} key = cacheLookup st key).
  { intros reqs logs. destruct (cacheable id).
    - rewrite cacheLookup_made. reflexivity.
    - reflexivity. }
  destruct (http_Do (requests st) _) as [err'|resp]; [intros _; apply H0|].
  destruct (StatusCode resp =? 404); [intros _; apply H0|].
  destruct (json_Decode_JobStatus resp) as [result [e|]]; discriminate.
Qed.

(** X4: the cache key joins the job and the id with a dash and so does
    not tell them apart: once the record of the job [job-id1] and the id
    [id2] is cached, a call for the job [job] and the id [id1-id2] is
    answered with that record, and the server is not asked. *)
Theorem GetStatusForJob_key_collision job id1 id2 st resp result :
  strings.Contains (job +:+ "-" +:+ id1) "/" = false ->
  strings.Contains job "/" = false ->
  cacheable id2 = true ->
  cacheable (id1 +:+ "-" +:+ id2) = true ->
  cacheLookup st (cacheKey (job +:+ "-" +:+ id1) id2) = None ->
  http_Do (requests st)
    {| method := GET;
       url := statusLink (ServerLocation (api st)) (job +:+ "-" +:+ id1) id2 |}
  = inr resp ->
  StatusCode resp <> 404 ->
  json_Decode_JobStatus resp = (result, None) ->
  let st1 := snd (Get (job +:+ "-" +:+ id1) id2 st) in
  fst (Get job (id1 +:+ "-" +:+ id2) st1) = inr result
  /\ requests (snd (Get job (id1 +:+ "-" +:+ id2) st1)) = requests st1.
Proof.
  intros Hf1 Hf Hc2 Hc' Hmiss Hdo Hcode Hdec st1.
  assert (Hkey : cacheKey job (id1 +:+ "-" +:+ id2)
                 = cacheKey (job +:+ "-" +:+ id1) id2).
  { unfold cacheKey. rewrite !append_assoc_string. reflexivity. }
  assert (Hcached : cacheLookup st1 (cacheKey job (id1 +:+ "-" +:+ id2)) = Some result).
  { unfold st1. rewrite GetStatusForJob_miss by (rewrite ?Hc2; assumption).
    rewrite Hdo. apply Z.eqb_neq in Hcode. rewrite Hcode, Hdec, Hc2.
    unfold cacheLookup. cbn. rewrite Hkey. apply lookup_insert_eq. }
  rewrite (GetStatusForJob_hit _ _ _ _ _ _ Hf Hc' Hcached). split; reflexivity.
Qed.

(** X5: [GetCurrentStatus] neither reads nor writes the cache: its answer
    is the same whatever the cache holds, and the cache is after the call
    what it was before. *)
Theorem GetCurrentStatus_ignores_cache job st c :
  fst (GetCurrentStatus http_Do json_Decode_JobStatus job (set_cachedStatuses c st))
  = fst (GetCurrentStatus http_Do json_Decode_JobStatus job st)
  /\ cachedStatuses (api (snd (GetCurrentStatus http_Do json_Decode_JobStatus job st)))
     = cachedStatuses (api st).
Proof.
  unfold GetCurrentStatus.
  destruct (strings.Contains job "/") eqn:Hf.
  { rewrite !GetStatusForJob_folder by exact Hf. split; reflexivity. }
  rewrite !GetStatusForJob_miss by (try exact Hf; reflexivity).
  cbn [set_cachedStatuses api requests logged ServerLocation].
  destruct (http_Do (requests st) _) as [err|resp]; [split; reflexivity|].
  destruct (StatusCode resp =? 404); [split; reflexivity|].
  destruct (json_Decode_JobStatus resp) as [result [e|]]; split; reflexivity.
Qed.

End ResolverFacts.

(** ** More on the walk *)

Lemma addCulpritIdsToSet_union (culprits : list Culprit) :
  forall set, addCulpritIdsToSet set culprits = set ∪ culpritNames culprits.
Proof.
  unfold addCulpritIdsToSet, culpritNames.
  induction culprits as [|c culprits IH]; intros set; cbn [fold_left map list_to_set].
  - set_solver.
  - rewrite IH. set_solver.
Qed.

Lemma addChangeSetsToSet_union (changeSets : list ChangeSet) :
  forall set, addChangeSetsToSet set changeSets = set ∪ authorNames changeSets.
Proof.
  unfold addChangeSetsToSet, authorNames.
  induction changeSets as [|cs changeSets IH]; intros set; cbn [fold_left flat_map].
  - cbn. set_solver.
  - rewrite IH. rewrite list_to_set_app_L.
    assert (H : forall items set0,
               fold_left (fun set1 item => {[FullName (Author item)]} ∪ set1) items set0
               = (set0 : gset string)
                 ∪ list_to_set (map (fun item => FullName (Author item)) items)).
    { induction items as [|item items IHi]; intros set0; cbn [fold_left map list_to_set].
      - set_solver.
      - rewrite IHi. set_solver. }
    rewrite H. set_solver.
Qed.

Section Flat.

Variable ac : AddCauses.
Variable status : JobStatus.

Local Abbreviation C := (culpritNames (Culprits status)).
Local Abbreviation A := (authorNames (ChangeSets status)).

Lemma classifyCause_flat causes :
  (forall cause, In cause causes -> isUpstream cause = false) ->
  forall set st,
  exists set',
    forRange (classifyCause ac status) causes (set, st) = Some (set', st)
    /\ set ∪ list_to_set (userIDs causes) ⊆ set'
    /\ set' ⊆ set ∪ list_to_set (userIDs causes) ∪ C ∪ A.
Proof.
  induction causes as [|cause causes IH]; intros Hflat set st; cbn [forRange].
  - exists set. split; [reflexivity|]. cbn. set_solver.
  - assert (Hc : isUpstream cause = false) by (apply Hflat; left; reflexivity).
    assert (Hrest : forall c, In c causes -> isUpstream c = false)
      by (intros c Hin; apply Hflat; right; exact Hin).
    unfold classifyCause at 1. unfold isUpstream in Hc. unfold userIDs. cbn [flat_map].
    fold (userIDs causes).
    destruct (String.eqb (UserID cause) "") eqn:Eu; cbn [negb].
    + cbn [andb] in Hc. rewrite Hc.
      destruct (String.eqb (ShortDescription cause) "Started by an SCM change").
      { destruct (IH Hrest (addCulpritIdsToSet set (Culprits status)) st)
          as (set' & -> & H1 & H2).
        exists set'. split; [reflexivity|].
        rewrite addCulpritIdsToSet_union in H1, H2. cbn [app]. set_solver. }
      destruct (strings.HasPrefix (ShortDescription cause) "commit notification").
      { destruct (IH Hrest (addChangeSetsToSet set (ChangeSets status)) st)
          as (set' & -> & H1 & H2).
        exists set'. split; [reflexivity|].
        rewrite addChangeSetsToSet_union in H1, H2. cbn [app]. set_solver. }
      destruct (IH Hrest set st) as (set' & -> & H1 & H2).
      exists set'. split; [reflexivity|]. cbn [app]. set_solver.
    + destruct (IH Hrest ({[UserID cause]} ∪ set) st) as (set' & -> & H1 & H2).
      exists set'. split; [reflexivity|]. cbn [app list_to_set]. set_solver.
Qed.

Lemma forActions_flat actions :
  (forall action cause, In action actions -> In cause (Causes action) ->
                        isUpstream cause = false) ->
  forall set st,
  exists set',
    forRange (fun acc action => forRange (classifyCause ac status) (Causes action) acc)
      actions (set, st) = Some (set', st)
    /\ set ∪ userNames actions ⊆ set'
    /\ set' ⊆ set ∪ userNames actions ∪ C ∪ A.
Proof.
  unfold userNames.
  induction actions as [|action actions IH]; intros Hflat set st; cbn [forRange flat_map].
  - exists set. split; [reflexivity|]. cbn. set_solver.
  - destruct (classifyCause_flat (Causes action)
                (fun cause Hin => Hflat action cause (or_introl eq_refl) Hin) set st)
      as (set1 & -> & H1 & H2).
    destruct (IH (fun a c Ha Hc => Hflat a c (or_intror Ha) Hc) set1 st)
      as (set' & -> & H3 & H4).
    exists set'. split; [reflexivity|]. rewrite list_to_set_app_L.
    clear IH Hflat.
    generalize dependent (list_to_set (userIDs (Causes action)) : gset string).
    generalize dependent (list_to_set
                            (flat_map (fun action0 => userIDs (Causes action0)) actions)
                          : gset string).
    generalize dependent C. generalize dependent A. clear. set_solver.
Qed.

End Flat.

Lemma classifyCause_grows ac status set st cause set' st' :
  growing ac ->
  classifyCause ac status (set, st) cause = Some (set', st') ->
  set ⊆ set' /\ (UserID cause <> "" -> UserID cause ∈ set').
Proof.
  intros Hac. unfold classifyCause.
  destruct (String.eqb (UserID cause) "") eqn:Eu; cbn [negb].
  2:{ intros [= <- <-]. split; [set_solver|]. intros _. set_solver. }
  apply String.eqb_eq in Eu.
  destruct (negb (UpstreamBuild cause =? 0)
            && negb (String.eqb (UpstreamProject cause) "")).
  { destruct (ac set _ _ st) as [[[[e|] set1] st1]|] eqn:E; [| |discriminate];
      intros [= <- <-]; (split; [exact (Hac _ _ _ _ _ _ _ E)|congruence]). }
  destruct (String.eqb (ShortDescription cause) "Started by an SCM change").
  { intros [= <- <-]. rewrite addCulpritIdsToSet_union. split; [set_solver|congruence]. }
  destruct (strings.HasPrefix (ShortDescription cause) "commit notification").
  { intros [= <- <-]. rewrite addChangeSetsToSet_union. split; [set_solver|congruence]. }
  intros [= <- <-]. split; [set_solver|congruence].
Qed.

Lemma forCauses_grows ac status causes :
  growing ac ->
  forall set st set' st',
    forRange (classifyCause ac status) causes (set, st) = Some (set', st') ->
    set ⊆ set'
    /\ forall cause, In cause causes -> UserID cause <> "" -> UserID cause ∈ set'.
Proof.
  intros Hac. induction causes as [|cause causes IH]; intros set st set' st';
    cbn [forRange].
  - intros [= <- <-]. split; [set_solver|]. intros cause [].
  - destruct (classifyCause ac status (set, st) cause) as [[set1 st1]|] eqn:E;
      [|discriminate].
    intros H. destruct (classifyCause_grows _ _ _ _ _ _ _ Hac E) as [H1 H2].
    destruct (IH _ _ _ _ H) as [H3 H4]. split; [set_solver|].
    intros c [<-|Hin] Hu; [set_solver|exact (H4 c Hin Hu)].
Qed.

Lemma addActionIdsToSet_with_grows ac status :
  growing ac ->
  forall set st set' st',
    addActionIdsToSet_with ac set status st = Some (set', st') ->
    set ⊆ set'
    /\ forall action cause,
         In action (Actions status) -> In cause (Causes action) ->
         UserID cause <> "" -> UserID cause ∈ set'.
Proof.
  intros Hac. unfold addActionIdsToSet_with.
  induction (Actions status) as [|action actions IH]; intros set st set' st';
    cbn [forRange].
  - intros [= <- <-]. split; [set_solver|]. intros action cause [].
  - destruct (forRange (classifyCause ac status) (Causes action) (set, st))
      as [[set1 st1]|] eqn:E; [|discriminate].
    intros H. destruct (forCauses_grows _ _ _ Hac _ _ _ _ E) as [H1 H2].
    destruct (IH _ _ _ _ H) as [H3 H4]. split; [set_solver|].
    intros a c [<-|Hin] Hc Hu.
    + pose proof (H2 c Hc Hu). set_solver.
    + exact (H4 a c Hin Hc Hu).
Qed.

Section Walk.

Variable http_Do : list Request -> Request -> error + Response.
Variable json_Decode_JobStatus : Response -> JobStatus * option error.

Local Abbreviation Get := (GetStatusForJob http_Do json_Decode_JobStatus).
Local Abbreviation loop := (CausesOfFailures_loop http_Do json_Decode_JobStatus).
Local Abbreviation walk := (CausesOfFailures http_Do json_Decode_JobStatus).

Lemma addCauses_grows fuel : growing (addCauses http_Do json_Decode_JobStatus fuel).
Proof.
  induction fuel as [|fuel IH]; intros set p b st e set' st'; cbn [addCauses].
  - discriminate.
  - destruct (Get p (strconv.Itoa b) st) as [[err|status] st1].
    + intros [= _ <- _]. set_solver.
    + destruct (addActionIdsToSet_with _ set status st1) as [[set1 st2]|] eqn:E;
        [|discriminate].
      intros [= _ <- _]. exact (proj1 (addActionIdsToSet_with_grows _ _ IH _ _ _ _ E)).
Qed.

(** X6: [Causes] returns, whenever it returns, every culprit of the
    status and every user id of its causes. *)
Theorem Causes_contains fuel status st causes st' :
  ServerAPI_Causes http_Do json_Decode_JobStatus fuel status st = Some (causes, st') ->
  (forall culprit, In culprit (Culprits status) -> In (FullName culprit) causes)
  /\ (forall action cause,
         In action (Actions status) -> In cause (Causes action) ->
         UserID cause <> "" -> In (UserID cause) causes).
Proof.
  unfold ServerAPI_Causes, addActionIdsToSet.
  fold (addCulpritIdsToSet ∅ (Culprits status)).
  destruct (addActionIdsToSet_with _ _ status st) as [[set' st1]|] eqn:E; [|discriminate].
  intros [= <- <-].
  destruct (addActionIdsToSet_with_grows _ _ (addCauses_grows fuel) _ _ _ _ E) as [H1 H2].
  rewrite addCulpritIdsToSet_union in H1. unfold mapKeysToSlice. split.
  - intros culprit Hin. apply list_elem_of_In, elem_of_elements, H1.
    apply elem_of_union_r. unfold culpritNames. apply elem_of_list_to_set.
    apply list_elem_of_In, in_map, Hin.
  - intros action cause Ha Hc Hu.
    apply list_elem_of_In, elem_of_elements. exact (H2 action cause Ha Hc Hu).
Qed.

(** On a record without upstream cause the body runs in place. *)
Lemma addActionIdsToSet_flat_body fuel set status st :
  noUpstream status ->
  exists set',
    addActionIdsToSet http_Do json_Decode_JobStatus fuel set status st = Some (set', st).
Proof.
  intros Hflat. unfold addActionIdsToSet, addActionIdsToSet_with.
  destruct (forActions_flat (addCauses http_Do json_Decode_JobStatus fuel) status
              (Actions status) Hflat set st) as (set' & -> & _).
  exists set'. reflexivity.
Qed.


Lemma CausesOfFailures_loop_not_a_number fuel name v set id st :
  strconv.Atoi id = None ->
  loop fuel name v set id st
  = Some (set, if String.eqb id lastCompletedBuild then st
               else log_Println (LogCouldNotParse id) st).
Proof.
  intros Hid. destruct v; cbn [CausesOfFailures_loop]; rewrite Hid;
    destruct (String.eqb id lastCompletedBuild); reflexivity.
Qed.

(** X8: a start id that is not a decimal number ends the walk at once: no
    request is sent, the receiver is untouched and the result is empty; in
    particular [CausesOfPreviousFailures], which starts from
    [lastCompletedBuild], returns the empty list for every job. *)
Theorem CausesOfFailures_not_a_number fuel name id st :
  strconv.Atoi id = None ->
  (exists st', walk fuel name id st = Some ([], st')
               /\ requests st' = requests st /\ api st' = api st)
  /\ CausesOfPreviousFailures http_Do json_Decode_JobStatus fuel name st = Some ([], st).
Proof.
  intros Hid. split.
  - unfold CausesOfFailures. rewrite CausesOfFailures_loop_not_a_number by exact Hid.
    unfold mapKeysToSlice. rewrite elements_empty.
    destruct (String.eqb id lastCompletedBuild); eexists; repeat split; reflexivity.
  - unfold CausesOfPreviousFailures, CausesOfFailures.
    rewrite CausesOfFailures_loop_not_a_number by reflexivity.
    unfold mapKeysToSlice. rewrite elements_empty. reflexivity.
Qed.

(** X9: when the build the walk starts from succeeded or was fixed, the
    result is empty, whatever the record names, and the resolver was called
    once. *)
Theorem CausesOfFailures_success_first fuel name id currentID st status :
  strconv.Atoi id = Some currentID ->
  fst (Get name id st) = inr status ->
  Result status = "SUCCESS" \/ Result status = "FIXED" ->
  walk fuel name id st = Some ([], snd (Get name id st)).
Proof.
  intros Hid Hget Hres. unfold CausesOfFailures.
  rewrite (CausesOfFailures_loop_step _ _ _ _ _ _ _ _ _ Hid).
  destruct (Get name id st) as [[err|status'] st1]; cbn [fst snd] in *; [discriminate|].
  injection Hget as ->.
  assert (E : String.eqb (Result status) "SUCCESS" || String.eqb (Result status) "FIXED"
              = true).
  { destruct Hres as [-> | ->]; reflexivity. }
  rewrite E. unfold mapKeysToSlice. rewrite elements_empty. reflexivity.
Qed.

(** X10: an error of the resolver other than not-found ends the walk
    without failing it: the iteration returns the accumulator as it is and
    writes the error to the log. *)
Theorem CausesOfFailures_loop_other_error fuel name v set id currentID st err :
  strconv.Atoi id = Some currentID ->
  fst (Get name id st) = inl err ->
  err <> errStatusPageNotFound ->
  loop fuel name (S (S v)) set id st
  = Some (set, log_Println (LogCouldNotFetch err) (snd (Get name id st))).
Proof.
  intros Hid Hget Herr.
  rewrite (CausesOfFailures_loop_step _ _ _ _ _ _ _ _ _ Hid).
  destruct (Get name id st) as [[err'|status] st1]; cbn [fst snd] in *; [|discriminate].
  injection Hget as ->.
  destruct err as [|msg]; [congruence|]. reflexivity.
Qed.

(** The resolver on a server and a cache without upstream causes. *)
Lemma GetStatusForJob_flat job id st :
  flatServer http_Do json_Decode_JobStatus ->
  flatCache st ->
  flatCache (snd (Get job id st))
  /\ (forall status, fst (Get job id st) = inr status -> noUpstream status)
  /\ (length (requests (snd (Get job id st))) <= S (length (requests st)))%nat.
Proof.
  intros Hsrv Hst.
  destruct (strings.Contains job "/") eqn:Hf.
  { rewrite GetStatusForJob_folder by exact Hf. cbn.
    split; [exact Hst|]. split; [discriminate|lia]. }
  destruct (if cacheable id then cacheLookup st (cacheKey job id) else None)
    as [cached|] eqn:Hl.
  { destruct (cacheable id) eqn:Hc; [|discriminate].
    rewrite (GetStatusForJob_hit _ _ _ _ _ _ Hf Hc Hl). cbn.
    split; [exact Hst|]. split; [|lia]. intros ? [= <-]. exact (Hst _ _ Hl). }
  rewrite GetStatusForJob_miss by assumption.
  assert (H0 : forall reqs logs,
             flatCache
               {| api := {| ServerLocation := ServerLocation (api st);
                            Username := Username (api st);
                            Password := Password (api st);
                            cachedStatuses :=
                              if cacheable id
                              then Some (default ∅ (cachedStatuses (api st)))
                              else cachedStatuses (api st) |};
                  requests := reqs; logged := logs |}).
  { intros reqs logs key status. destruct (cacheable id).
    - rewrite cacheLookup_made. apply Hst.
    - apply Hst. }
  assert (Hlen : (length (requests st ++ [ {| method := GET;
                    url := statusLink (ServerLocation (api st)) job id |} ])
                  <= S (length (requests st)))%nat).
  { rewrite length_app. cbn. lia. }
  destruct (http_Do (requests st) _) as [err|resp] eqn:Hdo.
  { cbn [fst snd requests]. split; [apply H0|]. split; [discriminate|exact Hlen]. }
  destruct (StatusCode resp =? 404).
  { cbn [fst snd requests]. split; [apply H0|]. split; [discriminate|exact Hlen]. }
  pose proof (Hsrv _ _ _ Hdo) as Hrec.
  destruct (json_Decode_JobStatus resp) as [result [e|]]; cbn [fst snd requests] in *.
  { split; [apply H0|]. split; [intros ? [= <-]; exact Hrec|exact Hlen]. }
  split; [|split; [intros ? [= <-]; exact Hrec|exact Hlen]].
  intros key status. unfold cacheLookup. cbn.
  destruct (cacheable id); [|apply (Hst key)].
  cbn. rewrite lookup_insert. case_decide as Hk.
  - intros [= <-]. exact Hrec.
  - intros H. apply (Hst key status). unfold cacheLookup.
    destruct (cachedStatuses (api st)); [exact H|].
    cbn in H. rewrite lookup_empty in H. discriminate H.
Qed.

Lemma CausesOfFailures_loop_flat fuel name :
  flatServer http_Do json_Decode_JobStatus ->
  forall v set id st,
    flatCache st ->
    exists set' st',
      loop fuel name v set id st = Some (set', st')
      /\ (length (requests st') <= length (requests st) + (v - 1))%nat.
Proof.
  intros Hsrv. induction v as [|v IH]; intros set id st Hst.
  - cbn [CausesOfFailures_loop].
    destruct (String.eqb id lastCompletedBuild); [eexists _, _; split; [reflexivity|lia]|].
    destruct (strconv.Atoi id); eexists _, _; (split; [reflexivity|cbn; lia]).
  - destruct (strconv.Atoi id) as [currentID|] eqn:Hz.
    2:{ cbn [CausesOfFailures_loop]. rewrite Hz.
        destruct (String.eqb id lastCompletedBuild);
          eexists _, _; (split; [reflexivity|cbn; lia]). }
    destruct v as [|v].
    { rewrite (CausesOfFailures_loop_budget _ _ _ _ _ _ _ _ Hz).
      eexists _, _. split; [reflexivity|cbn; lia]. }
    rewrite (CausesOfFailures_loop_step _ _ _ _ _ _ _ _ _ Hz).
    destruct (GetStatusForJob_flat name id st Hsrv Hst) as (Hst1 & Hrec & Hlen).
    destruct (Get name id st) as [[err|status] st1]; cbn [fst snd] in *.
    + destruct (error_eqb err errStatusPageNotFound).
      * destruct (IH set (strconv.Itoa (GoInt.sub currentID 1)) st1 Hst1)
          as (set' & st' & -> & Hle).
        eexists _, _. split; [reflexivity|]. lia.
      * eexists _, _. split; [reflexivity|]. cbn. lia.
    + destruct (String.eqb (Result status) "SUCCESS"
                || String.eqb (Result status) "FIXED").
      { eexists _, _. split; [reflexivity|]. lia. }
      destruct (addActionIdsToSet_flat_body fuel set status
                  (log_Println (LogGotActions name id) st1) (Hrec _ eq_refl))
        as (set1 & ->).
      destruct (IH (addChangeSetsToSet (addCulpritIdsToSet set1 (Culprits status))
                      (ChangeSets status))
                  (strconv.Itoa (GoInt.sub currentID 1))
                  (log_Println (LogGotActions name id) st1) Hst1)
        as (set' & st' & -> & Hle).
      eexists _, _. split; [reflexivity|]. cbn [log_Println requests] in Hle. lia.
Qed.


End Walk.

(** ** More on the console tail, the test report and the catalogue *)

Lemma scanBackward_length data lineCount n :
  forall nl endIter acc,
    (length (scanBackward data lineCount n nl endIter acc)
     <= length acc + Z.to_nat (lineCount - nl))%nat.
Proof.
  induction n as [|n IH]; intros nl endIter acc; cbn [scanBackward]; [lia|].
  destruct (nl <? lineCount) eqn:E; [|lia]. apply Z.ltb_lt in E.
  destruct (_ && _).
  - etransitivity; [apply IH|]. rewrite length_app. cbn [length]. lia.
  - apply IH.
Qed.

Lemma stripMatches_no_CR s : forall inTag, hasChar carriageReturn (stripMatches inTag s) = false.
Proof.
  induction s as [|c s IH]; intros inTag; cbn [stripMatches]; [reflexivity|].
  destruct inTag.
  - destruct (Ascii.eqb c ">"); apply IH.
  - destruct (Ascii.eqb c "<" && opensTag s); [apply IH|].
    destruct (Ascii.eqb c carriageReturn) eqn:E; [apply IH|].
    cbn [hasChar]. rewrite E. apply IH.
Qed.

Section ConsoleFacts.

Variable http_Do : list Request -> Request -> error + Response.
Variable json_Decode_TestCaseResult : Response -> TestCaseResult * option error.
Variable json_Decode_Status : Response -> Catalog.Status * option error.

Local Abbreviation sent := withRequest.

(** X12: how [fetchLinesForLastLogLines] ends: it sends the one GET; an
    error of the connection, a status other than 200 and an error while
    reading the body each give an error, the second one with the status
    code in its message; otherwise the lines of the scan are returned in
    reverse. *)
Theorem fetchLinesForLastLogLines_outcomes link lineCount st :
  let req := {| method := GET; url := link |} in
  snd (fetchLinesForLastLogLines http_Do link lineCount st) = sent req st
  /\ (forall err, http_Do (requests st) req = inl err ->
                  fst (fetchLinesForLastLogLines http_Do link lineCount st) = inl err)
  /\ (forall resp, http_Do (requests st) req = inr resp ->
                   StatusCode resp <> 200 ->
                   fst (fetchLinesForLastLogLines http_Do link lineCount st)
                   = inl (errorString ("not able to fetch console output: "
                                         +:+ strconv.Itoa (StatusCode resp))))
  /\ (forall resp err, http_Do (requests st) req = inr resp ->
                       StatusCode resp = 200 -> BodyErr resp = Some err ->
                       fst (fetchLinesForLastLogLines http_Do link lineCount st) = inl err)
  /\ (forall resp, http_Do (requests st) req = inr resp ->
                   StatusCode resp = 200 -> BodyErr resp = None ->
                   fst (fetchLinesForLastLogLines http_Do link lineCount st)
                   = inr (rev (collectLines (Body resp) lineCount))).
Proof.
  intros req. unfold fetchLinesForLastLogLines, http_Get. fold req.
  split; [|split; [|split; [|split]]].
  - destruct (http_Do (requests st) req) as [err|resp]; [reflexivity|].
    destruct (negb (StatusCode resp =? 200)); [reflexivity|].
    destruct (BodyErr resp); reflexivity.
  - intros err ->. reflexivity.
  - intros resp -> Hcode. apply Z.eqb_neq in Hcode. rewrite Hcode. reflexivity.
  - intros resp err -> -> ->. reflexivity.
  - intros resp -> -> ->. cbn [Z.eqb Pos.eqb negb fst]. rewrite reverseInPlace_rev.
    reflexivity.
Qed.


(** X14: when the size probe fails, [GetLastLogLines] returns an error and
    has sent the HEAD request only: the content is not asked for.  The
    probe fails on an error of the connection, on a status other than 200,
    on a missing [X-Text-Size] header and on a size that is not a number. *)
Theorem GetLastLogLines_probe_fails job id lineCount st :
  let head := {| method := HEAD; url := logLink (ServerLocation (api st)) job id |} in
  match http_Do (requests st) head with
  | inl _ => True
  | inr probe => StatusCode probe <> 200 \/ strconv.Atoi (X_Text_Size probe) = None
  end ->
  exists err,
    GetLastLogLines http_Do job id lineCount st = (inl err, sent head st).
Proof.
  intros head H. unfold GetLastLogLines, fetchSizeForLastLogLines, http_Head.
  fold head. destruct (http_Do (requests st) head) as [err|probe].
  - eexists. reflexivity.
  - destruct (negb (StatusCode probe =? 200)) eqn:Hcode; [eexists; reflexivity|].
    destruct (String.eqb (X_Text_Size probe) ""); [eexists; reflexivity|].
    destruct H as [H|H].
    + apply negb_false_iff, Z.eqb_eq in Hcode. contradiction.
    + rewrite H. eexists. reflexivity.
Qed.

(** X15: how [GetFailedTestListFor] fails: it sends the one GET of the
    test report and leaves the receiver alone; an error of the connection
    is returned as it is, a 404 gives the error "no test report found",
    and an error of the decoder is returned as it is. *)
Theorem GetFailedTestListFor_errors job id st :
  let req := {| method := GET; url := testReportLink (ServerLocation (api st)) job id |} in
  let call := GetFailedTestListFor http_Do json_Decode_TestCaseResult job id st in
  requests (snd call) = (requests st ++ [req])%list
  /\ api (snd call) = api st
  /\ (forall err, http_Do (requests st) req = inl err -> fst call = inl err)
  /\ (forall resp, http_Do (requests st) req = inr resp -> StatusCode resp = 404 ->
                   fst call = inl (errorString "no test report found"))
  /\ (forall resp err, http_Do (requests st) req = inr resp -> StatusCode resp <> 404 ->
                       snd (json_Decode_TestCaseResult resp) = Some err ->
                       fst call = inl err).
Proof.
  intros req call. unfold call, GetFailedTestListFor, http_Get.
  cbn [requests api logged log_Println]. fold req.
  split; [|split; [|split; [|split]]].
  - destruct (http_Do (requests st) req) as [err|resp]; [reflexivity|].
    destruct (StatusCode resp =? 404); [reflexivity|].
    destruct (json_Decode_TestCaseResult resp) as [received [e|]]; reflexivity.
  - destruct (http_Do (requests st) req) as [err|resp]; [reflexivity|].
    destruct (StatusCode resp =? 404); [reflexivity|].
    destruct (json_Decode_TestCaseResult resp) as [received [e|]]; reflexivity.
  - intros err ->. reflexivity.
  - intros resp -> ->. reflexivity.
  - intros resp err -> Hcode Hdec. apply Z.eqb_neq in Hcode. rewrite Hcode.
    destruct (json_Decode_TestCaseResult resp) as [received [e|]]; cbn in Hdec;
      [|discriminate]. injection Hdec as ->. reflexivity.
Qed.

(** X16: [GetKnownJobs] fails only when the connection does: it sends the
    one GET of the catalogue, and every response, whatever its status code
    and whatever the decoder says of its payload, is a success that returns
    what the decoder left behind. *)
Theorem GetKnownJobs_outcomes st :
  let req := {| method := GET; url := knownJobsLink (ServerLocation (api st)) |} in
  let call := GetKnownJobs http_Do json_Decode_Status st in
  snd call = sent req st
  /\ (forall err, http_Do (requests st) req = inl err -> fst call = inl err)
  /\ (forall resp, http_Do (requests st) req = inr resp ->
                   fst call = inr (fst (json_Decode_Status resp))).
Proof.
  intros req call. unfold call, GetKnownJobs, http_Get. fold req.
  split; [|split].
  - destruct (http_Do (requests st) req) as [err|resp]; [reflexivity|].
    destruct (json_Decode_Status resp); reflexivity.
  - intros err ->. reflexivity.
  - intros resp ->. destruct (json_Decode_Status resp); reflexivity.
Qed.

End ConsoleFacts.

(** X17: a cleaned line holds no carriage return, and a line that holds
    neither a carriage return nor an opening angle bracket is returned as
    it is. *)
Theorem cleanLine_spec :
  (forall s, hasChar carriageReturn (cleanLine s) = false)
  /\ (forall s, hasChar carriageReturn s = false -> hasChar "<" s = false ->
                cleanLine s = s).
Proof.
  split.
  - intros s. apply stripMatches_no_CR.
  - unfold cleanLine. induction s as [|c s IH]; intros Hcr Hlt; [reflexivity|].
    cbn [hasChar] in Hcr, Hlt. apply orb_false_iff in Hcr as [Hc1 Hc2].
    apply orb_false_iff in Hlt as [Hl1 Hl2].
    cbn [stripMatches]. rewrite Hl1, Hc1. cbn [andb]. rewrite (IH Hc2 Hl2). reflexivity.
Qed.

(** ** The backward scan as a function of the lines of the buffer *)

Lemma length_append_string (a b : string) :
  String.length (a +:+ b) = (String.length a + String.length b)%nat.
Proof.
  induction a as [|c a IH]; [reflexivity|].
  change (S (String.length (a +:+ b)) = S (String.length a + String.length b)).
  rewrite IH. reflexivity.
Qed.

Lemma get_append_middle (a b : string) c :
  String.get (String.length a) (a +:+ String c b) = Some c.
Proof.
  induction a as [|c' a IH]; [reflexivity|]. exact IH.
Qed.

Lemma substring_append_middle (a l b : string) :
  String.substring (String.length a) (String.length l) (a +:+ l +:+ b) = l.
Proof.
  induction a as [|c a IH]; [|exact IH].
  change (String.substring 0 (String.length l) (l +:+ b) = l).
  induction l as [|c l IHl].
  - destruct b; reflexivity.
  - change (String c (String.substring 0 (String.length l) (l +:+ b)) = String c l).
    rewrite IHl. reflexivity.
Qed.

Lemma linesAfter_snoc lines line :
  linesAfter (lines ++ [line]) = linesAfter lines +:+ String newline line.
Proof.
  induction lines as [|l lines IH].
  - cbn. change (String newline (line +:+ "") = String newline line).
    f_equal. induction line as [|c line IHl]; [reflexivity|].
    change (String c (line +:+ "") = String c line). rewrite IHl. reflexivity.
  - cbn [app linesAfter fold_right]. fold (linesAfter (lines ++ [line])).
    fold (linesAfter lines). rewrite IH.
    change (String newline (l +:+ linesAfter lines +:+ String newline line)
            = String newline ((l +:+ linesAfter lines) +:+ String newline line)).
    rewrite append_assoc_string. reflexivity.
Qed.

Lemma scanBackward_full data lineCount n nl endIter acc :
  (nl <? lineCount) = false -> scanBackward data lineCount n nl endIter acc = acc.
Proof. intros E. destruct n; cbn [scanBackward]; [|rewrite E]; reflexivity. Qed.

(** The scan walks over a stretch without newline and changes nothing. *)
Lemma scanBackward_skip seg :
  hasChar newline seg = false ->
  forall pre post lineCount nl endIter acc,
    (nl <? lineCount) = true ->
    scanBackward (pre +:+ seg +:+ post) lineCount
      (String.length pre + String.length seg) nl endIter acc
    = scanBackward (pre +:+ seg +:+ post) lineCount (String.length pre) nl endIter acc.
Proof.
  induction seg as [|c seg IH]; intros Hseg pre post lineCount nl endIter acc Hnl.
  - cbn [String.length]. rewrite Nat.add_0_r. reflexivity.
  - cbn [hasChar] in Hseg. apply orb_false_iff in Hseg as [Hc Hseg].
    assert (Hdata : pre +:+ String c seg +:+ post
                    = (pre +:+ String c "") +:+ seg +:+ post).
    { rewrite append_assoc_string. reflexivity. }
    assert (Hlen : (String.length pre + String.length (String c seg)
                    = String.length (pre +:+ String c "") + String.length seg)%nat).
    { rewrite length_append_string. cbn [String.length]. lia. }
    rewrite Hlen, Hdata, (IH Hseg), <- Hdata.
    rewrite length_append_string. cbn [String.length].
    replace (String.length pre + 1)%nat with (S (String.length pre)) by lia.
    cbn [scanBackward]. rewrite Hnl.
    change (pre +:+ String c seg +:+ post) with (pre +:+ String c (seg +:+ post)).
    rewrite get_append_middle, Hc. reflexivity. exact Hnl.
Qed.

Lemma scanBackward_lines lineCount lines :
  Forall (fun line => hasChar newline line = false) lines ->
  forall first post nl acc,
    hasChar newline first = false ->
    scanBackward (first +:+ linesAfter lines +:+ post) lineCount
      (String.length first + String.length (linesAfter lines)) nl
      (Z.of_nat (String.length first + String.length (linesAfter lines))) acc
    = (acc ++ map cleanLine (firstn (Z.to_nat (lineCount - nl)) (rev lines)))%list.
Proof.
  induction lines as [|line lines IH] using rev_ind; intros Hlines first post nl acc Hfirst.
  - cbn [linesAfter fold_right rev String.length]. rewrite firstn_nil, app_nil_r.
    destruct (nl <? lineCount) eqn:E; [|apply scanBackward_full, E].
    rewrite Nat.add_0_r.
    pose proof (scanBackward_skip first Hfirst "" post lineCount nl
                  (Z.of_nat (String.length first)) acc E) as H.
    cbn [String.length Nat.add] in H.
    change ("" +:+ first +:+ post) with (first +:+ "" +:+ post) in H.
    rewrite H. reflexivity.
  - apply Forall_app in Hlines as [Hlines Hline].
    apply Forall_cons_iff in Hline as [Hline _].
    destruct (nl <? lineCount) eqn:E.
    2:{ rewrite scanBackward_full by exact E. apply Z.ltb_ge in E.
        replace (Z.to_nat (lineCount - nl)) with 0%nat by lia.
        cbn. rewrite app_nil_r. reflexivity. }
    rewrite rev_app_distr. cbn [rev app].
    apply Z.ltb_lt in E.
    replace (Z.to_nat (lineCount - nl)) with (S (Z.to_nat (lineCount - (nl + 1)))) by lia.
    cbn [firstn map].
    set (pre0 := first +:+ linesAfter lines).
    assert (Hdata : first +:+ linesAfter (lines ++ [line]) +:+ post
                    = (pre0 +:+ String newline "") +:+ line +:+ post).
    { unfold pre0. rewrite linesAfter_snoc, !append_assoc_string. reflexivity. }
    assert (Hn : (String.length first + String.length (linesAfter (lines ++ [line]))
                  = String.length (pre0 +:+ String newline "") + String.length line)%nat).
    { unfold pre0. rewrite linesAfter_snoc, !length_append_string.
      cbn [String.length]. lia. }
    rewrite Hn, Hdata.
    rewrite scanBackward_skip by (try exact Hline; apply Z.ltb_lt; exact E).
    assert (Hp : String.length (pre0 +:+ String newline "") = S (String.length pre0)).
    { rewrite length_append_string. cbn [String.length]. lia. }
    rewrite Hp. cbn [scanBackward].
    apply Z.ltb_lt in E. rewrite E.
    assert (Hget : String.get (String.length pre0)
                     ((pre0 +:+ String newline "") +:+ line +:+ post) = Some newline).
    { rewrite append_assoc_string. apply get_append_middle. }
    rewrite Hget.
    assert (Hne : (Z.of_nat (String.length pre0)
                   =? Z.of_nat (S (String.length pre0) + String.length line)) = false).
    { apply Z.eqb_neq. lia. }
    rewrite Hne.
    change (Ascii.eqb newline newline && negb false) with true. cbv iota.
    assert (Hslice : slice ((pre0 +:+ String newline "") +:+ line +:+ post)
                       (Z.of_nat (String.length pre0) + 1)
                       (Z.of_nat (S (String.length pre0) + String.length line))
                     = line).
    { unfold slice.
      replace (Z.to_nat (Z.of_nat (String.length pre0) + 1))
        with (String.length (pre0 +:+ String newline "")) by (rewrite Hp; lia).
      replace (Z.to_nat (Z.of_nat (S (String.length pre0) + String.length line)
                         - (Z.of_nat (String.length pre0) + 1)))
        with (String.length line) by lia.
      apply substring_append_middle. }
    rewrite Hslice.
    assert (Hdata' : (pre0 +:+ String newline "") +:+ line +:+ post
                     = first +:+ linesAfter lines +:+ (String newline (line +:+ post))).
    { unfold pre0. rewrite !append_assoc_string. reflexivity. }
    rewrite Hdata'. unfold pre0. rewrite length_append_string.
    rewrite (IH Hlines first _ (nl + 1) _ Hfirst).
    rewrite <- app_assoc. reflexivity.
Qed.

Section TailLines.

Variable http_Do : list Request -> Request -> error + Response.

(** X18: when the body is some text without newline, then lines that each
    follow a newline, then one last byte, [fetchLinesForLastLogLines]
    returns the last [lineCount] of these lines, cleaned and in the order
    of the body: the text before the first newline is never returned, and
    the last byte of the body, newline or not, is dropped. *)
Theorem fetchLinesForLastLogLines_lines link lineCount st resp first lines last :
  http_Do (requests st) {| method := GET; url := link |} = inr resp ->
  StatusCode resp = 200 ->
  BodyErr resp = None ->
  Body resp = first +:+ linesAfter lines +:+ String last "" ->
  hasChar newline first = false ->
  Forall (fun line => hasChar newline line = false) lines ->
  fst (fetchLinesForLastLogLines http_Do link lineCount st)
  = inr (map cleanLine (skipn (length lines - Z.to_nat lineCount) lines)).
Proof.
  intros Hdo Hcode Herr Hbody Hfirst Hlines.
  unfold fetchLinesForLastLogLines, http_Get. rewrite Hdo, Hcode, Herr.
  cbn [Z.eqb Pos.eqb negb fst]. rewrite reverseInPlace_rev. f_equal.
  rewrite Hbody. unfold collectLines.
  set (n := (String.length first + String.length (linesAfter lines))%nat).
  assert (Hlen : String.length (first +:+ linesAfter lines +:+ String last "") = S n).
  { unfold n. rewrite !length_append_string. cbn [String.length]. lia. }
  rewrite Hlen.
  assert (Hscan : scanBackward (first +:+ linesAfter lines +:+ String last "") lineCount
                    (S n) 0 (Z.of_nat (S n) - 1) []
                  = map cleanLine (firstn (Z.to_nat lineCount) (rev lines))).
  { destruct (0 <? lineCount) eqn:E.
    - cbn [scanBackward]. rewrite E.
      replace (Z.of_nat n =? Z.of_nat (S n) - 1) with true
        by (symmetry; apply Z.eqb_eq; lia).
      rewrite andb_false_r.
      replace (Z.of_nat (S n) - 1) with (Z.of_nat n) by lia.
      unfold n. rewrite (scanBackward_lines lineCount lines Hlines first _ 0 [] Hfirst).
      replace (lineCount - 0) with lineCount by lia. reflexivity.
    - rewrite scanBackward_full by exact E. apply Z.ltb_ge in E.
      replace (Z.to_nat lineCount) with 0%nat by lia. reflexivity. }
  rewrite Hscan, <- map_rev. f_equal.
  rewrite firstn_rev, rev_involutive. reflexivity.
Qed.

End TailLines.

(** ** The further properties on concrete servers *)

Lemma GetStatusForJob_cache_grows_witness :
  cacheLookup
    (snd (GetStatusForJob oneServer oneDecoder "job" "43"
            (snd (GetStatusForJob oneServer oneDecoder "job" "42" fresh))))
    "job-42"
  = Some (build "SUCCESS" "erin" []).
Proof.
  apply (GetStatusForJob_cache_grows oneServer oneDecoder "job" "43"
           (snd (GetStatusForJob oneServer oneDecoder "job" "42" fresh)) "job-42").
  vm_compute. reflexivity.
Defined.

Lemma GetStatusForJob_error_not_cached_witness :
  cacheLookup (snd (GetStatusForJob purgedServer purgedDecoder "job" "10" fresh)) "job-10"
  = cacheLookup fresh "job-10".
Proof.
  apply (GetStatusForJob_error_not_cached purgedServer purgedDecoder "job" "10" fresh
           errStatusPageNotFound).
  vm_compute. reflexivity.
Defined.

Lemma GetStatusForJob_key_collision_witness :
  fst (GetStatusForJob collisionServer oneDecoder "a" "1-2"
         (snd (GetStatusForJob collisionServer oneDecoder "a-1" "2" fresh)))
  = inr (build "SUCCESS" "erin" [])
  /\ requests (snd (GetStatusForJob collisionServer oneDecoder "a" "1-2"
                      (snd (GetStatusForJob collisionServer oneDecoder "a-1" "2" fresh))))
     = requests (snd (GetStatusForJob collisionServer oneDecoder "a-1" "2" fresh)).
Proof.
  refine (GetStatusForJob_key_collision collisionServer oneDecoder "a" "1" "2" fresh
            {| StatusCode := 200; X_Text_Size := ""; Body := "fortytwo"; BodyErr := None |}
            (build "SUCCESS" "erin" []) _ _ _ _ _ _ _ _);
    try reflexivity.
  intros E. discriminate E.
Defined.

Lemma Causes_contains_witness : In "dave" ["alice"; "dave"] /\ In "alice" ["alice"; "dave"].
Proof.
  assert (H : ServerAPI_Causes diamondServer diamondDecoder 1
                (build "FAILURE" "dave" [ {| Causes := [ upstream "up" 7; user "alice" ] |} ])
                fresh
              = Some (["alice"; "dave"],
                      match ServerAPI_Causes diamondServer diamondDecoder 1
                              (build "FAILURE" "dave"
                                 [ {| Causes := [ upstream "up" 7; user "alice" ] |} ])
                              fresh with
                      | Some (_, st') => st'
                      | None => fresh
                      end)).
  { vm_compute. reflexivity. }
  destruct (Causes_contains diamondServer diamondDecoder _ _ _ _ _ H) as [H1 H2].
  split.
  - exact (H1 {| FullName := "dave" |} (or_introl eq_refl)).
  - refine (H2 {| Causes := [ upstream "up" 7; user "alice" ] |} (user "alice")
              (or_introl eq_refl) (or_intror (or_introl eq_refl)) _).
    intros E. discriminate E.
Defined.


Lemma CausesOfFailures_not_a_number_witness :
  exists st', CausesOfFailures purgedServer purgedDecoder 0 "job" "abc" fresh = Some ([], st')
              /\ requests st' = requests fresh /\ api st' = api fresh.
Proof.
  apply (CausesOfFailures_not_a_number purgedServer purgedDecoder 0 "job" "abc" fresh).
  reflexivity.
Defined.

Lemma CausesOfFailures_success_first_witness :
  CausesOfFailures oneServer oneDecoder 0 "job" "42" fresh
  = Some ([], snd (GetStatusForJob oneServer oneDecoder "job" "42" fresh)).
Proof.
  apply (CausesOfFailures_success_first oneServer oneDecoder 0 "job" "42" 42 fresh
           (build "SUCCESS" "erin" [])).
  - reflexivity.
  - vm_compute. reflexivity.
  - left. reflexivity.
Defined.

Lemma CausesOfFailures_loop_other_error_witness :
  CausesOfFailures_loop downServer purgedDecoder 0 "job" 20 ∅ "10" fresh
  = Some (∅, log_Println (LogCouldNotFetch (errorString "connection refused"))
               (snd (GetStatusForJob downServer purgedDecoder "job" "10" fresh))).
Proof.
  apply (CausesOfFailures_loop_other_error downServer purgedDecoder 0 "job" 18 ∅ "10" 10
           fresh (errorString "connection refused")).
  - reflexivity.
  - vm_compute. reflexivity.
  - intros E. discriminate E.
Defined.

Lemma purged_flat : flatServer purgedServer purgedDecoder.
Proof.
  intros trace req resp _ action cause Ha. unfold purgedDecoder, tableDecoder in Ha.
  cbn [assoc] in Ha.
  destruct (String.eqb (Body resp) "nine"); [destruct Ha|].
  destruct (String.eqb (Body resp) "eight"); destruct Ha.
Qed.



Lemma GetLastLogLines_probe_fails_witness :
  exists err,
    GetLastLogLines purgedServer "job" "7" 3 fresh
    = (inl err,
       withRequest {| method := HEAD; url := logLink location "job" "7" |} fresh).
Proof.
  apply (GetLastLogLines_probe_fails purgedServer "job" "7" 3 fresh).
  vm_compute. left. intros E. discriminate E.
Defined.

Lemma fetchLinesForLastLogLines_lines_witness :
  fst (fetchLinesForLastLogLines logServer
         (logLink location "job" "7" +:+ "?start=-2040") 2 fresh)
  = inr (map cleanLine (skipn (length ["b"; "c"; "d"] - Z.to_nat 2) ["b"; "c"; "d"])).
Proof.
  apply (fetchLinesForLastLogLines_lines logServer
           (logLink location "job" "7" +:+ "?start=-2040") 2 fresh
           {| StatusCode := 200; X_Text_Size := ""; Body := logBuffer; BodyErr := None |}
           "a" ["b"; "c"; "d"] newline); try reflexivity.
  repeat constructor.
Defined.

(** ** The mock *)

Section MockFacts.

Variable raw : nat -> Z.
Variable now : Z.

Lemma rand_Intn_range n draws :
  0 < n -> 0 <= fst (MockAPI.rand_Intn raw n draws) < n.
Proof. intros Hn. cbn. apply Z.mod_pos_bound. exact Hn. Qed.

Lemma pick_In names draws :
  names <> [] -> In (fst (MockAPI.pick raw names draws)) names.
Proof.
  intros Hne. unfold MockAPI.pick.
  pose proof (rand_Intn_range (Z.of_nat (length names)) draws) as H.
  destruct (MockAPI.rand_Intn raw (Z.of_nat (length names)) draws) as [i draws'].
  cbn [fst] in *. apply nth_In.
  destruct names; [congruence|]. cbn [length] in *. lia.
Qed.

(** What the loop keeps, and how often its body runs: at most 4 times. *)
Lemma forIntn5_inv {A : Type} (P : nat -> A -> Prop) (body : A -> nat -> A * nat) :
  (forall k acc draws, P k acc -> P (S k) (fst (body acc draws))) ->
  forall remaining i acc draws k,
    0 <= i -> P k acc ->
    exists k', (k <= k')%nat /\ Z.of_nat (k' - k) <= Z.max 0 (4 - i)
               /\ P k' (fst (MockAPI.forIntn5 raw body remaining i acc draws)).
Proof.
  intros Hbody. induction remaining as [|remaining IH]; intros i acc draws k Hi HP;
    cbn [MockAPI.forIntn5].
  - pose proof (rand_Intn_range 5 draws ltac:(lia)) as Hv.
    destruct (MockAPI.rand_Intn raw 5 draws) as [v draws']. cbn [fst].
    exists k. split; [lia|]. split; [lia|exact HP].
  - pose proof (rand_Intn_range 5 draws ltac:(lia)) as Hv.
    destruct (MockAPI.rand_Intn raw 5 draws) as [v draws']. cbn [fst] in *.
    destruct (i <? v) eqn:E.
    + apply Z.ltb_lt in E. pose proof (Hbody k acc draws' HP) as HP'.
      destruct (body acc draws') as [acc' draws'']. cbn [fst] in HP'.
      destruct (IH (i + 1) acc' draws'' (S k) ltac:(lia) HP') as (k' & H1 & H2 & H3).
      exists k'. split; [lia|]. split; [lia|exact H3].
    + exists k. split; [lia|]. split; [lia|exact HP].
Qed.

Lemma knownJobsLoop_spec remaining :
  forall i jobs draws,
    let r := MockAPI.knownJobsLoop raw remaining i jobs draws in
    map Catalog.Name (fst r)
    = (map Catalog.Name jobs
         ++ map (fun k => "a_test_job_long_name" +:+ strconv.Itoa (i + Z.of_nat k))
              (seq 0 remaining))%list
    /\ (Forall (fun job => In (Catalog.Color job) [ "blue"; "red"; "aborted" ]) jobs ->
        Forall (fun job => In (Catalog.Color job) [ "blue"; "red"; "aborted" ]) (fst r))
    /\ snd r = (draws + remaining)%nat.
Proof.
  induction remaining as [|remaining IH]; intros i jobs draws; cbn [MockAPI.knownJobsLoop].
  - cbn. rewrite app_nil_r. split; [reflexivity|]. split; [auto|lia].
  - pose proof (rand_Intn_range 3 draws ltac:(lia)) as Hv.
    destruct (MockAPI.rand_Intn raw 3 draws) as [v draws'] eqn:Er.
    assert (Hd : draws' = S draws)
      by (unfold MockAPI.rand_Intn in Er; inversion Er; reflexivity).
    cbn [fst] in Hv.
    specialize (IH (i + 1)
                  (jobs ++ [ {| Catalog.Name := "a_test_job_long_name" +:+ strconv.Itoa i;
                                Catalog.Color :=
                                  if v =? 0 then "blue"
                                  else if v =? 1 then "red"
                                  else if v =? 2 then "aborted" else "" |} ])%list
                  draws').
    cbv zeta in IH. destruct IH as (H1 & H2 & H3). cbv zeta.
    split; [|split].
    + rewrite H1, map_app, <- app_assoc. cbn [map app seq]. rewrite Z.add_0_r.
      f_equal. f_equal. rewrite <- seq_shift, map_map.
      apply map_ext. intros k. do 2 f_equal. lia.
    + intros Hjobs. apply H2. apply Forall_app. split; [exact Hjobs|].
      constructor; [|constructor]. cbn [Catalog.Color].
      destruct (v =? 0) eqn:E0; [cbn; auto|].
      destruct (v =? 1) eqn:E1; [cbn; auto|].
      destruct (v =? 2) eqn:E2; [cbn; auto|].
      apply Z.eqb_neq in E0, E1, E2. lia.
    + rewrite H3, Hd. lia.
Qed.

(** X19: the mock's [GetKnownJobs] returns, whatever the generator draws,
    the twelve jobs a_test_job_long_name0 to a_test_job_long_name11 in
    this order, each with one of the colours blue, red and aborted, and no
    error; it draws twelve numbers. *)
Theorem Mock_GetKnownJobs_twelve draws :
  exists jobs,
    MockAPI.GetKnownJobs raw draws
    = (inr {| Catalog.JobBuildStatusList := jobs |}, (draws + 12)%nat)
    /\ map Catalog.Name jobs
       = map (fun k => "a_test_job_long_name" +:+ strconv.Itoa (Z.of_nat k)) (seq 0 12)
    /\ Forall (fun job => In (Catalog.Color job) [ "blue"; "red"; "aborted" ]) jobs.
Proof.
  unfold MockAPI.GetKnownJobs.
  pose proof (knownJobsLoop_spec 12 0 [] draws) as H. cbv zeta in H.
  destruct (MockAPI.knownJobsLoop raw 12 0 [] draws) as [jobs draws'].
  cbn [fst snd] in H. destruct H as (H1 & H2 & H3).
  exists jobs. split; [rewrite H3; reflexivity|]. split; [exact H1|].
  apply H2. constructor.
Qed.

(** X20: the status the mock makes up has at most four culprits, all from
    [randomCauses], one action with at most four causes, each a user from
    [randomCauses] and none an upstream cause, no change set, and an
    estimated duration from 0 below 300000; it is never an error. *)
Theorem Mock_GetCurrentStatus_shape job draws :
  exists status causes,
    fst (MockAPI.GetCurrentStatus raw now job draws) = inr status
    /\ (length (Culprits status) <= 4)%nat
    /\ Forall (fun culprit => In (FullName culprit) MockAPI.randomCauses) (Culprits status)
    /\ Actions status = [ {| Causes := causes |} ]
    /\ (length causes <= 4)%nat
    /\ Forall (fun cause => In (UserID cause) MockAPI.randomCauses
                            /\ isUpstream cause = false) causes
    /\ ChangeSets status = []
    /\ 0 <= EstimatedDuration status < 300000.
Proof.
  unfold MockAPI.GetCurrentStatus.
  set (addCulprit := fun (culprits : list Culprit) (draws : nat) =>
                       let '(name, draws) := MockAPI.pick raw MockAPI.randomCauses draws in
                       ((culprits ++ [ {| FullName := name |} ])%list, draws)).
  set (addCause := fun (causes : list Cause) (draws : nat) =>
                     let '(name, draws) := MockAPI.pick raw MockAPI.randomCauses draws in
                     ((causes ++ [ {| UserID := name; UpstreamBuild := 0;
                                      UpstreamProject := ""; ShortDescription := "" |} ])%list,
                      draws)).
  destruct (forIntn5_inv
              (fun k culprits =>
                 length culprits = k
                 /\ Forall (fun c => In (FullName c) MockAPI.randomCauses) culprits)
              addCulprit) with (remaining := 5%nat) (i := 0) (acc := @nil Culprit)
                               (draws := draws) (k := 0%nat)
    as (k1 & _ & Hk1 & Hlen1 & Hin1).
  { intros k acc d [Hl Hf]. unfold addCulprit.
    pose proof (pick_In MockAPI.randomCauses d ltac:(discriminate)) as Hp.
    destruct (MockAPI.pick raw MockAPI.randomCauses d) as [name d']. cbn [fst] in *.
    split; [rewrite length_app; cbn; lia|].
    apply Forall_app. split; [exact Hf|]. constructor; [exact Hp|constructor]. }
  { lia. }
  { split; [reflexivity|constructor]. }
  destruct (MockAPI.forIntn5 raw addCulprit 5 0 [] draws) as [culprits draws1].
  cbn [fst] in *.
  destruct (forIntn5_inv
              (fun k causes =>
                 length causes = k
                 /\ Forall (fun c => In (UserID c) MockAPI.randomCauses
                                     /\ isUpstream c = false) causes)
              addCause) with (remaining := 5%nat) (i := 0) (acc := @nil Cause)
                             (draws := draws1) (k := 0%nat)
    as (k2 & _ & Hk2 & Hlen2 & Hin2).
  { intros k acc d [Hl Hf]. unfold addCause.
    pose proof (pick_In MockAPI.randomCauses d ltac:(discriminate)) as Hp.
    destruct (MockAPI.pick raw MockAPI.randomCauses d) as [name d']. cbn [fst] in *.
    split; [rewrite length_app; cbn; lia|].
    apply Forall_app. split; [exact Hf|]. constructor; [|constructor].
    split; [exact Hp|]. unfold isUpstream. cbn. apply andb_false_r. }
  { lia. }
  { split; [reflexivity|constructor]. }
  destruct (MockAPI.forIntn5 raw addCause 5 0 [] draws1) as [causes draws2].
  cbn [fst] in *.
  destruct (MockAPI.rand_Intn raw 2 draws2) as [b draws3].
  pose proof (rand_Intn_range 300000 draws3 ltac:(lia)) as Hd.
  destruct (MockAPI.rand_Intn raw 300000 draws3) as [d draws4].
  destruct (MockAPI.rand_Intn raw 300000 draws4) as [t draws5].
  cbn [fst] in *. eexists _, causes. split; [reflexivity|].
  cbn [Culprits Actions ChangeSets EstimatedDuration].
  repeat split; try assumption; try lia.
Qed.

(** X21: the causes the mock makes up are names from [randomCauses], each
    at most once, so at most four, whatever the status it is asked about. *)
Theorem Mock_Causes_names status draws :
  let causes := fst (MockAPI.Causes raw status draws) in
  Forall (fun name => In name MockAPI.randomCauses) causes
  /\ NoDup causes
  /\ (length causes <= 4)%nat.
Proof.
  unfold MockAPI.Causes.
  set (addName := fun (set : gset string) (draws : nat) =>
                    let '(name, draws) := MockAPI.pick raw MockAPI.randomCauses draws in
                    ({[name]} ∪ set, draws)).
  destruct (forIntn5_inv
              (fun _ (set : gset string) => set ⊆ list_to_set MockAPI.randomCauses)
              addName) with (remaining := 5%nat) (i := 0) (acc := (∅ : gset string))
                            (draws := draws) (k := 0%nat)
    as (k & _ & _ & Hsub).
  { intros k acc d Hacc. unfold addName.
    pose proof (pick_In MockAPI.randomCauses d ltac:(discriminate)) as Hp.
    destruct (MockAPI.pick raw MockAPI.randomCauses d) as [name d']. cbn [fst] in *.
    apply union_subseteq. split; [|exact Hacc].
    apply singleton_subseteq_l, elem_of_list_to_set, list_elem_of_In, Hp. }
  { lia. }
  { apply empty_subseteq. }
  destruct (MockAPI.forIntn5 raw addName 5 0 ∅ draws) as [set draws']. cbn [fst] in *.
  unfold mapKeysToSlice. split; [|split].
  - apply Forall_forall. intros name Hin.
    apply elem_of_elements in Hin.
    apply list_elem_of_In. exact (proj1 (elem_of_list_to_set _ _) (Hsub _ Hin)).
  - first [ apply NoDup_elements | apply (proj1 (NoDup_ListNoDup _)), NoDup_elements | apply (proj2 (NoDup_ListNoDup _)), NoDup_elements ].
  - change (length (elements set)) with (size set).
    etransitivity; [apply subseteq_size, Hsub|]. vm_compute. lia.
Qed.

(** X22: the mock's [GetFailedTestList] and [GetFailedTestListFor] return
    no test case and no error, whatever the generator draws: the cases they
    make up go to a local slice that is not the one returned. *)
Theorem Mock_GetFailedTestList_empty job id draws :
  fst (MockAPI.GetFailedTestList raw job draws) = inr []
  /\ fst (MockAPI.GetFailedTestListFor raw job id draws) = inr [].
Proof.
  unfold MockAPI.GetFailedTestListFor, MockAPI.GetFailedTestList.
  destruct (MockAPI.forIntn5 _ _ _ _ _ _) as [set draws']. split; reflexivity.
Qed.

End MockFacts.
